(** * A shallow embedding of [auto_ml/predictor.py] (class [Predictor])

    The third-party pieces the module calls (scikit-learn, the [utils]
    module, [math]) are kept abstract behind two type classes; everything the
    module does itself (argument normalisation, target cleaning, pipeline and
    search-space construction, the training driver and [predict]) is written
    out step by step.  Stateful methods run in a state-and-exception monad
    over the instance's attributes. *)

From Stdlib Require Import List String Ascii ZArith Bool Lia Permutation Sorted.
From Stdlib Require DecimalString.
Import ListNotations.
Open Scope string_scope.
Open Scope Z_scope.
Open Scope list_scope.
Set Warnings "-register-all".

(** ** Python exceptions and a state/exception monad *)

Inductive exn :=
| ValueError
| TypeError
| NameError
| AttributeError
| KeyError
| IndexError.

Inductive result (A : Type) :=
| Ok (a : A)
| Err (e : exn).
Arguments Ok {A} a.
Arguments Err {A} e.

Definition SM (S A : Type) : Type := S -> result A * S.

Definition sm_ret {S A} (a : A) : SM S A := fun st => (Ok a, st).

Definition sm_bind {S A B} (m : SM S A) (k : A -> SM S B) : SM S B :=
  fun st =>
    match m st with
    | (Ok a, st') => k a st'
    | (Err e, st') => (Err e, st')
    end.

Definition sm_raise {S A} (e : exn) : SM S A := fun st => (Err e, st).

Definition sm_lift {S A} (r : result A) : SM S A := fun st => (r, st).

Definition sm_gets {S A} (f : S -> A) : SM S A := fun st => (Ok (f st), st).

Definition sm_modify {S} (f : S -> S) : SM S unit := fun st => (Ok tt, f st).

(** Reading an attribute that may be absent: [AttributeError] if it is. *)
Definition sm_attr {S A} (f : S -> option A) : SM S A :=
  fun st =>
    match f st with
    | Some a => (Ok a, st)
    | None => (Err AttributeError, st)
    end.

Notation "x <- m ;; k" := (sm_bind m (fun x => k))
  (at level 61, m at next level, right associativity).
Notation "' p <- m ;; k" := (sm_bind m (fun x => match x with p => k end))
  (at level 61, p pattern, m at next level, right associativity).
Notation "m ;;; k" := (sm_bind m (fun _ => k))
  (at level 61, right associativity).

(** [result]-level list traversal, stopping at the first exception, as a
    list comprehension does. *)
Fixpoint map_result {A B} (f : A -> result B) (l : list A) : result (list B) :=
  match l with
  | [] => Ok []
  | x :: t =>
      match f x with
      | Err e => Err e
      | Ok y =>
          match map_result f t with
          | Err e => Err e
          | Ok ys => Ok (y :: ys)
          end
      end
  end.

(** ** Strings: [str.lower] (ASCII, as Python 2's [str]) and [in] *)

Definition ascii_lower (c : ascii) : ascii :=
  let n := nat_of_ascii c in
  if (Nat.leb 65 n && Nat.leb n 90)%bool then ascii_of_nat (n + 32) else c.

Fixpoint lower (s : string) : string :=
  match s with
  | EmptyString => EmptyString
  | String c s' => String (ascii_lower c) (lower s')
  end.

Definition str_in (s : string) (l : list string) : bool :=
  existsb (String.eqb s) l.

(** Truthiness of a Python value that is [None] or a list. *)
Definition truthy {A} (l : option (list A)) : bool :=
  match l with
  | Some (_ :: _) => true
  | _ => false
  end.

(** ** Dictionaries keyed by strings, in insertion order *)

Fixpoint dict_get {A} (d : list (string * A)) (k : string) : option A :=
  match d with
  | [] => None
  | (k', v) :: t => if String.eqb k k' then Some v else dict_get t k
  end.

(** [d[k] = v]: overwrite the entry for [k] or append a new one. *)
Fixpoint dict_set {A} (d : list (string * A)) (k : string) (v : A)
  : list (string * A) :=
  match d with
  | [] => [(k, v)]
  | (k', v') :: t =>
      if String.eqb k k' then (k, v) :: t else (k', v') :: dict_set t k v
  end.

Definition dict_keys {A} (d : list (string * A)) : list string := map fst d.

(** ** Python values and the [math] module *)

Class PyValues := {
  (** Python [float] *)
  Float : Type;
  (** raw cell values of the training records *)
  Val : Type;
  (** the user-supplied row transform ([user_input_func]) *)
  UserFunc : Type;
  (** [float(v)]; [None] when it raises *)
  py_float : Val -> option Float;
  (** [int(v)]; [None] when it raises *)
  py_int : Val -> option Z;
  (** [<] on floats, as used by [sorted] *)
  float_lt : Float -> Float -> bool;
  (** [x <= 0.0] *)
  float_le_zero : Float -> bool;
  (** [float(i)] of a Python [int] *)
  float_of_int : Z -> Float;
  (** the natural logarithm on the positive floats *)
  ln : Float -> Float;
  (** [math.log(v)] applied to a raw cell value *)
  raw_math_log : Val -> result Float;
  (** [math.exp(x)] (may overflow) *)
  math_exp : Float -> result Float
}.

Section Values.
Context `{PyValues}.

(** A training record: a dict from column name to raw value. *)
Definition row : Type := list (string * Val).

(** A target value after cleaning: untouched, an [int] or a [float]. *)
Inductive tval :=
| TRaw (v : Val)
| TInt (z : Z)
| TFloat (f : Float).

(** The values a pipeline's [predict] may return. *)
Inductive pyval :=
| PyInt (z : Z)
| PyFloat (f : Float)
| PySeq (l : list pyval).

(** [math.log(x)]: [ValueError] ("math domain error") for [x <= 0]. *)
Definition math_log_float (x : Float) : result Float :=
  if float_le_zero x then Err ValueError else Ok (ln x).

Definition math_log (t : tval) : result tval :=
  match t with
  | TFloat f =>
      match math_log_float f with Ok r => Ok (TFloat r) | Err e => Err e end
  | TInt z => if z <=? 0 then Err ValueError else Ok (TFloat (ln (float_of_int z)))
  | TRaw v => match raw_math_log v with Ok r => Ok (TFloat r) | Err e => Err e end
  end.

(** Pipeline stages, as the constructors [_construct_pipeline] calls. *)
Inductive stage :=
| FunctionTransformer (func : UserFunc)
| FeatureEngineer (date_cols : list string)
| BasicDataCleaning (column_descriptions : list (string * string))
| CustomSparseScaler (column_descriptions : list (string * string))
| DictVectorizer (sparse : bool)
| FeatureSelectionTransformer (type_of_estimator : string)
    (feature_selection_model : string)
| FinalModelATC (model_name : string) (perform_grid_search_on_model : bool)
    (type_of_estimator : string) (ml_for_analytics : bool).

(** [Pipeline(pipeline_list)]: named stages in order. *)
Definition pipeline : Type := list (string * stage).

End Values.

(** Candidate values of a grid-search axis. *)
Inductive param_val :=
| PBool (b : bool)
| PStr (s : string).

(** The [param_grid] mapping of [GridSearchCV]. *)
Definition params : Type := list (string * list param_val).

(** The two scorers [train] records. *)
Inductive scorer :=
| BrierScorer   (* make_scorer(brier_score_loss, greater_is_better=True) *)
| RmseScoring.  (* utils.rmse_scoring *)

(** ** scikit-learn and the [utils] helpers *)

Class Sklearn `{PyValues} := {
  (** a fitted [Pipeline] ([gs.best_estimator_]) *)
  FittedPipeline : Type;
  (** a fitted [GridSearchCV] *)
  GridSearch : Type;
  (** [GridSearchCV(ppl, cv=2, param_grid=grid, error_score=10,
      scoring=scoring).fit(X, y)] *)
  grid_search_fit : pipeline -> params -> scorer -> list row -> list tval
    -> result GridSearch;
  best_estimator_ : GridSearch -> FittedPipeline;
  best_score_ : GridSearch -> Float;
  (** [fitted_pipeline.predict(data)] *)
  pipeline_predict : FittedPipeline -> list row -> result pyval;
  (** [scorer(pipeline, X_test, y_test, took_log_of_y)] *)
  call_scorer : scorer -> FittedPipeline -> list row -> list Val -> bool
    -> result Float;
  (** [fitted_pipeline.score(X_test, y_test)] *)
  pipeline_score : FittedPipeline -> list row -> list Val -> result Float;
  (** the analytics printers, which only read the trained pipeline and may
      raise *)
  print_ml_analytics_results_regression : string -> FittedPipeline
    -> result unit;
  print_ml_analytics_results_random_forest : FittedPipeline -> result unit;
  (** [utils.write_gs_param_results_to_file(gs, file_name)] *)
  utils_write_gs_param_results_to_file : GridSearch -> string -> result unit
}.

Section Predictor.
Context {PV : PyValues} {SK : @Sklearn PV}.

(** The attributes [train] sets before anything reads them. *)
Record train_config := {
  write_gs_param_results_to_file : bool;
  compute_power : Z;
  ml_for_analytics : bool;
  only_analytics : bool;
  X_test : option (list row);
  y_test : option (list Val);
  print_training_summary_to_viewer : bool
}.

(** One entry of [self.grid_search_pipelines]: the Python list
    [[holdout_score, gs.best_score_, gs]] or [[gs.best_score_, gs]]. *)
Record gs_result := {
  holdout_score : option Float;
  cv_best_score : Float;
  grid_search : GridSearch
}.

(** [x[0]] of an entry, the sort key of [train]. *)
Definition first_score (x : gs_result) : Float :=
  match holdout_score x with
  | Some h => h
  | None => cv_best_score x
  end.

(** Lines written to standard output that the model keeps. *)
Inductive out_line :=
| OutText (s : string)
| OutIndices (l : list nat)
| OutValues (l : list Val).

(** The attributes of a [Predictor] instance.  [None] in an [option]
    field marks an attribute that is not set (reading it raises
    [AttributeError]); [trained_pipeline] and [_scorer] hold Python [None]. *)
Record predictor := mk_predictor {
  type_of_estimator : string;
  column_descriptions : list (string * string);
  verbose : bool;
  trained_pipeline : option FittedPipeline;
  _scorer : option scorer;
  date_cols : list string;
  took_log_of_y : bool;
  output_column : option string;
  grid_search_pipelines : option (list gs_result);
  grid_search_params : option params;
  train_cfg : option train_config;
  take_log_of_y : option bool;
  stdout : list out_line
}.

Definition set_trained_pipeline (v : option FittedPipeline) (s : predictor) :=
  mk_predictor (type_of_estimator s) (column_descriptions s) (verbose s) v
    (_scorer s) (date_cols s) (took_log_of_y s) (output_column s)
    (grid_search_pipelines s) (grid_search_params s) (train_cfg s)
    (take_log_of_y s) (stdout s).

Definition set__scorer (v : option scorer) (s : predictor) :=
  mk_predictor (type_of_estimator s) (column_descriptions s) (verbose s)
    (trained_pipeline s) v (date_cols s) (took_log_of_y s) (output_column s)
    (grid_search_pipelines s) (grid_search_params s) (train_cfg s)
    (take_log_of_y s) (stdout s).

Definition set_took_log_of_y (v : bool) (s : predictor) :=
  mk_predictor (type_of_estimator s) (column_descriptions s) (verbose s)
    (trained_pipeline s) (_scorer s) (date_cols s) v (output_column s)
    (grid_search_pipelines s) (grid_search_params s) (train_cfg s)
    (take_log_of_y s) (stdout s).

Definition set_grid_search_pipelines (v : option (list gs_result))
  (s : predictor) :=
  mk_predictor (type_of_estimator s) (column_descriptions s) (verbose s)
    (trained_pipeline s) (_scorer s) (date_cols s) (took_log_of_y s)
    (output_column s) v (grid_search_params s) (train_cfg s)
    (take_log_of_y s) (stdout s).

Definition set_grid_search_params (v : option params) (s : predictor) :=
  mk_predictor (type_of_estimator s) (column_descriptions s) (verbose s)
    (trained_pipeline s) (_scorer s) (date_cols s) (took_log_of_y s)
    (output_column s) (grid_search_pipelines s) v (train_cfg s)
    (take_log_of_y s) (stdout s).

Definition set_train_cfg (v : option train_config) (s : predictor) :=
  mk_predictor (type_of_estimator s) (column_descriptions s) (verbose s)
    (trained_pipeline s) (_scorer s) (date_cols s) (took_log_of_y s)
    (output_column s) (grid_search_pipelines s) (grid_search_params s) v
    (take_log_of_y s) (stdout s).

Definition set_take_log_of_y (v : option bool) (s : predictor) :=
  mk_predictor (type_of_estimator s) (column_descriptions s) (verbose s)
    (trained_pipeline s) (_scorer s) (date_cols s) (took_log_of_y s)
    (output_column s) (grid_search_pipelines s) (grid_search_params s)
    (train_cfg s) v (stdout s).

Definition print (l : list out_line) (s : predictor) :=
  mk_predictor (type_of_estimator s) (column_descriptions s) (verbose s)
    (trained_pipeline s) (_scorer s) (date_cols s) (took_log_of_y s)
    (output_column s) (grid_search_pipelines s) (grid_search_params s)
    (train_cfg s) (take_log_of_y s) (stdout s ++ l)%list.

Definition M (A : Type) : Type := SM predictor A.

Definition get_cfg {A} (f : train_config -> A) : M A :=
  sm_attr (fun s => option_map f (train_cfg s)).

(** ** [__init__] *)

Definition regressor_synonyms : list string :=
  ["regressor"; "regression"; "regressions"; "regressors"; "number";
   "numeric"; "continuous"].

Definition classifier_synonyms : list string :=
  ["classifier"; "classification"; "categorizer"; "categorization";
   "categories"; "labels"; "labeled"; "label"].

(** The loop over [column_descriptions.items()]: the values are lowercased
    in place, the last [output] column is kept, [date] columns collected. *)
Fixpoint scan_columns (cds : list (string * string))
  (output_column : option string) (date_cols : list string)
  : list (string * string) * option string * list string :=
  match cds with
  | [] => ([], output_column, date_cols)
  | (key, value) :: rest =>
      let value := lower value in
      let output_column :=
        if String.eqb value "output" then Some key else output_column in
      let date_cols :=
        if String.eqb value "date" then (date_cols ++ [key])%list else date_cols in
      let '(cds', oc, dcs) := scan_columns rest output_column date_cols in
      ((key, value) :: cds', oc, dcs)
  end.

Definition __init__ (type_of_estimator : string)
  (column_descriptions : list (string * string)) (verbose : bool)
  : result predictor :=
  let ty :=
    if str_in (lower type_of_estimator) regressor_synonyms then Ok "regressor"
    else if str_in (lower type_of_estimator) classifier_synonyms
    then Ok "classifier"
    else Err ValueError in
  match ty with
  | Err e => Err e
  | Ok ty =>
      let '(cds, oc, dcs) := scan_columns column_descriptions None [] in
      Ok (mk_predictor ty cds verbose None None dcs false oc (Some []) None
            None None [])
  end.

(** ** [_construct_pipeline] *)

Definition _construct_pipeline (self : predictor)
  (user_input_func : option UserFunc) (model_name : string)
  (optimize_final_model perform_feature_selection impute_missing_values
   ml_for_analytics perform_feature_scaling : bool) : pipeline :=
  let pipeline_list : pipeline :=
    match user_input_func with
    | Some f => [("user_func", FunctionTransformer f)]
    | None => []
    end in
  let pipeline_list :=
    if Nat.ltb 0 (List.length (date_cols self))
    then pipeline_list ++ [("date_feature_engineering",
                            FeatureEngineer (date_cols self))]
    else pipeline_list in
  (* These parts will be included no matter what. *)
  let pipeline_list :=
    pipeline_list ++ [("basic_transform",
                       BasicDataCleaning (column_descriptions self))] in
  let pipeline_list :=
    if perform_feature_scaling
    then pipeline_list ++ [("scaler",
                            CustomSparseScaler (column_descriptions self))]
    else pipeline_list in
  let pipeline_list := pipeline_list ++ [("dv", DictVectorizer true)] in
  let pipeline_list :=
    if perform_feature_selection
    then pipeline_list ++ [("feature_selection",
                            FeatureSelectionTransformer
                              (type_of_estimator self) "SelectFromModel")]
    else pipeline_list in
  pipeline_list ++ [("final_model",
                     FinalModelATC model_name optimize_final_model
                       (type_of_estimator self) ml_for_analytics)].

(** ** [_get_estimator_names] *)

Definition _get_estimator_names : M (list string) :=
  ty <- sm_gets type_of_estimator ;;
  if String.eqb ty "regressor" then
    let base_estimators := ["Ridge"; "XGBRegressor"] in
    cp <- get_cfg compute_power ;;
    if cp <? 7 then sm_ret base_estimators
    else sm_ret (base_estimators ++
                 ["RANSACRegressor"; "RandomForestRegressor";
                  "LinearRegression"; "AdaBoostRegressor";
                  "ExtraTreesRegressor"])%list
  else if String.eqb ty "classifier" then
    (* [base_estimators = ['RidgeClassifier', 'XGBClassifier']], then
       [if compute_power < 7]: the bare name [compute_power] is not bound
       in the method nor in the module *)
    sm_raise NameError
  else
    (* [raise('TypeError: ...')] raises a [str], itself a TypeError *)
    sm_raise TypeError.

(** ** [_construct_pipeline_search_params]

    Its other keyword arguments ([optimize_entire_pipeline],
    [ml_for_analytics], [perform_feature_selection]) are unused. *)

Definition _construct_pipeline_search_params (optimize_final_model : bool)
  (user_defined_model_names : option (list string)) : M params :=
  let gs_params : params := [] in
  add_inner <- (if optimize_final_model then sm_ret true
                else cp <- get_cfg compute_power ;; sm_ret (5 <=? cp)) ;;
  let gs_params :=
    if add_inner
    then dict_set gs_params "final_model__perform_grid_search_on_model"
           [PBool true; PBool false]
    else gs_params in
  cp <- get_cfg compute_power ;;
  let gs_params :=
    if 3 <=? cp
    then dict_set gs_params "scaler__truncate_large_values"
           [PBool true; PBool false]
    else gs_params in
  model_names <- (if truthy user_defined_model_names
                  then sm_ret (match user_defined_model_names with
                               | Some l => l
                               | None => []
                               end)
                  else _get_estimator_names) ;;
  let gs_params :=
    dict_set gs_params "final_model__model_name" (map PStr model_names) in
  cp <- get_cfg compute_power ;;
  sm_ret (if 10 <=? cp
          then dict_set gs_params "feature_selection__feature_selection_model"
                 (map PStr ["SelectFromModel"; "GenericUnivariateSelect";
                            "KeepAll"; "RFECV"])
          else gs_params).

(** Lines 238-240 of [perform_grid_search_by_model_names]: the search
    space of one estimator family. *)
Definition per_family_search_params (model_name : string) : M params :=
  gs_params <- _construct_pipeline_search_params false None ;;
  sm_ret (dict_set gs_params "final_model__model_name" [PStr model_name]).

(** ** [_prepare_for_training] *)

(** Modelled from the spec: [utils.split_output] is not in src/.  The spec
    says the records are "split into feature records and a parallel target
    sequence by removing the output column"; removing it from a record that
    lacks it raises [KeyError], as [dict.pop] does. *)
Fixpoint row_pop (key : string) (r : row) : option (Val * row) :=
  match r with
  | [] => None
  | (k, v) :: t =>
      if String.eqb key k then Some (v, t)
      else match row_pop key t with
           | Some (w, t') => Some (w, (k, v) :: t')
           | None => None
           end
  end.

Fixpoint split_output (raw : list row) (output_column : string)
  : result (list row * list Val) :=
  match raw with
  | [] => Ok ([], [])
  | r :: rest =>
      match row_pop output_column r with
      | None => Err KeyError
      | Some (v, r') =>
          match split_output rest output_column with
          | Err e => Err e
          | Ok (X, y) => Ok (r' :: X, v :: y)
          end
      end
  end.

(** Classifier branch: the whole loop is in one [try]; the first failing
    [int(val)] leaves [y] as it was. *)
Fixpoint int_all (y : list Val) : option (list Z) :=
  match y with
  | [] => Some []
  | v :: t =>
      match py_int v with
      | None => None
      | Some z => option_map (cons z) (int_all t)
      end
  end.

Definition classifier_y (y : list Val) : list tval :=
  match int_all y with
  | Some y_ints => map TInt y_ints
  | None => map TRaw y
  end.

(** Regressor branch: [for idx, val in enumerate(y)], a [try] per value;
    returns [(indices_to_delete, y_floats, bad_vals)]. *)
Fixpoint regression_y_loop (idx : nat) (y : list Val)
  : list nat * list Float * list Val :=
  match y with
  | [] => ([], [], [])
  | val :: t =>
      let '(indices_to_delete, y_floats, bad_vals) :=
        regression_y_loop (S idx) t in
      match py_float val with
      | Some float_val => (indices_to_delete, float_val :: y_floats, bad_vals)
      | None => (idx :: indices_to_delete, y_floats, val :: bad_vals)
      end
  end.

(** [[row for idx, row in enumerate(X) if idx not in indices_to_delete]] *)
Fixpoint keep_rows (indices_to_delete : list nat) (idx : nat) (X : list row)
  : list row :=
  match X with
  | [] => []
  | r :: t =>
      if existsb (Nat.eqb idx) indices_to_delete
      then keep_rows indices_to_delete (S idx) t
      else r :: keep_rows indices_to_delete (S idx) t
  end.

(** The results-file removal at the start is wrapped in a bare
    [try/except] and touches only the file system. *)
Definition _prepare_for_training (raw_training_data : list row)
  : M (list row * list tval) :=
  _ <- get_cfg write_gs_param_results_to_file ;;
  oc <- sm_attr output_column ;;
  '(X, y) <- sm_lift (split_output raw_training_data oc) ;;
  ty <- sm_gets type_of_estimator ;;
  if String.eqb ty "classifier" then sm_ret (X, classifier_y y)
  else
    let '(indices_to_delete, y_floats, bad_vals) := regression_y_loop 0 y in
    if Nat.ltb 0 (List.length indices_to_delete) then
      sm_modify (print [OutIndices indices_to_delete; OutValues bad_vals]) ;;;
      sm_ret (keep_rows indices_to_delete 0 X, map TFloat y_floats)
    else sm_ret (X, map TFloat y_floats).

(** ** [score] *)

Definition score (X_test : list row) (y_test : list Val) : M Float :=
  sc <- sm_gets _scorer ;;
  tp <- sm_attr trained_pipeline ;;
  match sc with
  | Some scoring =>
      tl <- sm_gets took_log_of_y ;;
      sm_lift (call_scorer scoring tp X_test y_test tl)
  | None => sm_lift (pipeline_score tp X_test y_test)
  end.

(** ** [perform_grid_search_by_model_names] *)

Definition gs_param_file_name : string :=
  "most_recent_pipeline_grid_search_result.csv".

(** One iteration of the loop, for [model_name]. *)
Definition grid_search_one (ppl : pipeline) (scoring : scorer)
  (X : list row) (y : list tval) (model_name : string) : M unit :=
  gsp <- per_family_search_params model_name ;;
  sm_modify (set_grid_search_params (Some gsp)) ;;;
  gs <- sm_lift (grid_search_fit ppl gsp scoring X y) ;;
  sm_modify (set_trained_pipeline (Some (best_estimator_ gs))) ;;;
  ty <- sm_gets type_of_estimator ;;
  (if str_in model_name
        ["LogisticRegression"; "RidgeClassifier"; "LinearRegression"; "Ridge"]
   then sm_lift (print_ml_analytics_results_regression ty (best_estimator_ gs))
   else if str_in model_name
        ["RandomForestClassifier"; "RandomForestRegressor"; "XGBClassifier";
         "XGBRegressor"]
   then sm_lift (print_ml_analytics_results_random_forest (best_estimator_ gs))
   else sm_ret tt) ;;;
  wr <- get_cfg write_gs_param_results_to_file ;;
  (if wr then sm_lift (utils_write_gs_param_results_to_file gs gs_param_file_name)
   else sm_ret tt) ;;;
  xt <- get_cfg X_test ;;
  yt <- get_cfg y_test ;;
  holdout <- (match xt, yt with
              | Some (_ :: _ as xs), Some (_ :: _ as ys) =>
                  h <- score xs ys ;; sm_ret (Some h)
              | _, _ => sm_ret None
              end) ;;
  (* [print_training_summary] only prints *)
  gsps <- sm_attr grid_search_pipelines ;;
  sm_modify (set_grid_search_pipelines
               (Some (gsps ++ [{| holdout_score := holdout;
                                   cv_best_score := best_score_ gs;
                                   grid_search := gs |}]))).

Fixpoint perform_grid_search_by_model_names (estimator_names : list string)
  (ppl : pipeline) (scoring : scorer) (X : list row) (y : list tval) : M unit :=
  match estimator_names with
  | [] => sm_ret tt
  | model_name :: rest =>
      grid_search_one ppl scoring X y model_name ;;;
      perform_grid_search_by_model_names rest ppl scoring X y
  end.

(** ** Selection of the best result

    [sorted(results, key=lambda x: x[0], reverse=True)]: a stable sort,
    descending on [x[0]].  For a strict total order on the keys Python's
    sort returns the same list as this insertion sort, which puts each
    entry after every earlier entry whose key is not smaller. *)

Fixpoint insert_desc (x : gs_result) (l : list gs_result) : list gs_result :=
  match l with
  | [] => [x]
  | y :: t =>
      if float_lt (first_score y) (first_score x) then x :: y :: t
      else y :: insert_desc x t
  end.

Definition sorted_desc (l : list gs_result) : list gs_result :=
  fold_left (fun acc x => insert_desc x acc) l [].

(** Lines 223-232 of [train]. *)
Definition select_and_retain : M unit :=
  gsps <- sm_attr grid_search_pipelines ;;
  match sorted_desc gsps with
  | [] => sm_raise IndexError
  | best_result_list :: _ =>
      sm_modify (set_trained_pipeline
                   (Some (best_estimator_ (grid_search best_result_list)))) ;;;
      (* [del self.grid_search_pipelines] *)
      sm_modify (set_grid_search_pipelines None)
  end.

(** ** [train] *)

(** The keyword arguments of [train]. *)
Record train_kwargs := {
  kw_user_input_func : option UserFunc;
  kw_optimize_entire_pipeline : bool;
  kw_optimize_final_model : bool;
  kw_write_gs_param_results_to_file : bool;
  kw_perform_feature_selection : bool;
  kw_verbose : bool;
  kw_X_test : option (list row);
  kw_y_test : option (list Val);
  kw_print_training_summary_to_viewer : bool;
  kw_ml_for_analytics : bool;
  kw_only_analytics : bool;
  kw_compute_power : Z;
  kw_take_log_of_y : bool;
  kw_model_names : option (list string)
}.

Definition train_defaults : train_kwargs := {|
  kw_user_input_func := None;
  kw_optimize_entire_pipeline := false;
  kw_optimize_final_model := false;
  kw_write_gs_param_results_to_file := true;
  kw_perform_feature_selection := true;
  kw_verbose := true;
  kw_X_test := None;
  kw_y_test := None;
  kw_print_training_summary_to_viewer := true;
  kw_ml_for_analytics := true;
  kw_only_analytics := false;
  kw_compute_power := 3;
  kw_take_log_of_y := true;
  kw_model_names := None
|}.

Definition train (raw_training_data : list row) (kw : train_kwargs) : M unit :=
  sm_modify (set_train_cfg (Some {|
    write_gs_param_results_to_file := kw_write_gs_param_results_to_file kw;
    compute_power := kw_compute_power kw;
    ml_for_analytics := kw_ml_for_analytics kw;
    only_analytics := kw_only_analytics kw;
    X_test := kw_X_test kw;
    y_test := kw_y_test kw;
    print_training_summary_to_viewer :=
      kw_print_training_summary_to_viewer kw |})) ;;;
  ty <- sm_gets type_of_estimator ;;
  (if String.eqb ty "regressor"
   then sm_modify (set_take_log_of_y (Some (kw_take_log_of_y kw)))
   else sm_ret tt) ;;;
  '(X, y) <- _prepare_for_training raw_training_data ;;
  tl <- sm_attr take_log_of_y ;;
  y <- (if tl then
          y <- sm_lift (map_result math_log y) ;;
          sm_modify (set_took_log_of_y true) ;;;
          sm_ret y
        else sm_ret y) ;;
  mla <- get_cfg ml_for_analytics ;;
  self <- sm_gets (fun s => s) ;;
  let ppl := _construct_pipeline self (kw_user_input_func kw)
               "LogisticRegression" (kw_optimize_final_model kw)
               (kw_perform_feature_selection kw) true mla true in
  estimator_names <- (if truthy (kw_model_names kw)
                      then sm_ret (match kw_model_names kw with
                                   | Some l => l
                                   | None => []
                                   end)
                      else _get_estimator_names) ;;
  let scoring := if String.eqb ty "classifier" then BrierScorer
                 else RmseScoring in
  sm_modify (set__scorer (Some scoring)) ;;;
  perform_grid_search_by_model_names estimator_names ppl scoring X y ;;;
  select_and_retain.

(** ** [predict] *)

(** [for idx, val in predicted_vals: predicted_vals[idx] = math.exp(val)]:
    each element is unpacked into two values, the second exponentiated and
    stored at the index given by the first.  The loop walks the positions
    of the (mutated) sequence. *)
Definition py_exp (v : pyval) : result Float :=
  match v with
  | PyFloat f => math_exp f
  | PyInt z => math_exp (float_of_int z)
  | PySeq _ => Err TypeError
  end.

Definition setitem (l : list pyval) (idx : pyval) (v : pyval)
  : result (list pyval) :=
  match idx with
  | PyInt i =>
      let n := Z.of_nat (List.length l) in
      let j := if i <? 0 then i + n else i in
      if (0 <=? j) && (j <? n)
      then Ok (firstn (Z.to_nat j) l ++ v :: skipn (S (Z.to_nat j)) l)
      else Err IndexError
  | _ => Err TypeError
  end.

Fixpoint exp_loop (fuel pos : nat) (l : list pyval) : result (list pyval) :=
  match fuel with
  | O => Ok l
  | S fuel' =>
      match nth_error l pos with
      | None => Ok l
      | Some (PySeq [idx; val]) =>
          match py_exp val with
          | Err e => Err e
          | Ok f =>
              match setitem l idx (PyFloat f) with
              | Err e => Err e
              | Ok l' => exp_loop fuel' (S pos) l'
              end
          end
      | Some (PySeq _) => Err ValueError   (* wrong number of values to unpack *)
      | Some _ => Err TypeError            (* a number is not iterable *)
      end
  end.

Definition predict (prediction_data : list row) : M pyval :=
  tp <- sm_attr trained_pipeline ;;
  predicted_vals <- sm_lift (pipeline_predict tp prediction_data) ;;
  tl <- sm_gets took_log_of_y ;;
  if tl then
    match predicted_vals with
    | PySeq l =>
        l' <- sm_lift (exp_loop (List.length l) 0 l) ;; sm_ret (PySeq l')
    | _ => sm_raise TypeError
    end
  else sm_ret predicted_vals.


(** ** Readings of the claims, used to compare with the code *)

(** The score tuple of an entry read lexicographically: [[holdout, cv]]
    when a holdout score was recorded, [[cv]] otherwise. *)
Definition spec_score_tuple (x : gs_result) : list Float :=
  match holdout_score x with
  | Some h => [h; cv_best_score x]
  | None => [cv_best_score x]
  end.

Fixpoint lex_lt (a b : list Float) : bool :=
  match a, b with
  | [], _ :: _ => true
  | x :: a', y :: b' =>
      float_lt x y || (negb (float_lt y x) && lex_lt a' b')
  | _, _ => false
  end.

(** Per-record coercion of classification targets. *)
Definition per_record_int (v : Val) : tval :=
  match py_int v with
  | Some z => TInt z
  | None => TRaw v
  end.

(** The predicate of a [Predictor] whose estimator kind is [classifier]
    and whose [take_log_of_y] attribute has never been set. *)
Definition classifier_state (st : predictor) : Prop :=
  type_of_estimator st = "classifier" /\ take_log_of_y st = None.

(** The search space [_construct_pipeline_search_params] builds at compute
    power [cp] once the family names are known. *)
Definition search_space_of (optimize_final_model : bool) (cp : Z)
  (model_names : list string) : params :=
  let g1 : params :=
    if optimize_final_model || (5 <=? cp)
    then dict_set [] "final_model__perform_grid_search_on_model"
           [PBool true; PBool false]
    else [] in
  let g2 :=
    if 3 <=? cp
    then dict_set g1 "scaler__truncate_large_values" [PBool true; PBool false]
    else g1 in
  let g3 := dict_set g2 "final_model__model_name" (map PStr model_names) in
  if 10 <=? cp
  then dict_set g3 "feature_selection__feature_selection_model"
         (map PStr ["SelectFromModel"; "GenericUnivariateSelect"; "KeepAll";
                    "RFECV"])
  else g3.

End Predictor.


(** ** [predict_proba] *)

Class SklearnProba {PV : PyValues} {SK : @Sklearn PV} := {
  (** [fitted_pipeline.predict_proba(data)] *)
  pipeline_predict_proba : FittedPipeline -> list row -> result pyval
}.

Section Proba.
Context {PV : PyValues} {SK : @Sklearn PV} {SP : @SklearnProba PV SK}.

Definition predict_proba (prediction_data : list row) : M pyval :=
  tp <- sm_attr trained_pipeline ;;
  sm_lift (pipeline_predict_proba tp prediction_data).

End Proba.

Section Shapes.
Context {PV : PyValues} {SK : @Sklearn PV}.

(** The sequence [[[0, v0], [1, v1], ...]], the shape [list(enumerate(vs))]
    has, on which the loop of [predict] writes each value back in place. *)
Definition enumerated (vs : list pyval) : list pyval :=
  map (fun p => PySeq [PyInt (Z.of_nat (fst p)); snd p])
    (combine (seq 0 (List.length vs)) vs).

(** [self.X_test and self.y_test]: both holdout sets given and non-empty. *)
Definition holdout_supplied (st : predictor) : bool :=
  match train_cfg st with
  | Some c => truthy (X_test c) && truthy (y_test c)
  | None => false
  end.

(** [train]'s keyword arguments with [model_names] left at [None]. *)
Definition without_model_names (kw : train_kwargs) : train_kwargs := {|
  kw_user_input_func := kw_user_input_func kw;
  kw_optimize_entire_pipeline := kw_optimize_entire_pipeline kw;
  kw_optimize_final_model := kw_optimize_final_model kw;
  kw_write_gs_param_results_to_file := kw_write_gs_param_results_to_file kw;
  kw_perform_feature_selection := kw_perform_feature_selection kw;
  kw_verbose := kw_verbose kw;
  kw_X_test := kw_X_test kw;
  kw_y_test := kw_y_test kw;
  kw_print_training_summary_to_viewer := kw_print_training_summary_to_viewer kw;
  kw_ml_for_analytics := kw_ml_for_analytics kw;
  kw_only_analytics := kw_only_analytics kw;
  kw_compute_power := kw_compute_power kw;
  kw_take_log_of_y := kw_take_log_of_y kw;
  kw_model_names := None
|}.

End Shapes.


(** ** The analytics printers

    What they read of the trained pipeline is kept abstract:
    [named_steps['feature_selection'].support_mask] (absent when the
    pipeline has no such step), [named_steps['dv'].get_feature_names()] and
    the attributes of [named_steps['final_model']] and of its [model]. *)

Class Analytics {PV : PyValues} {SK : @Sklearn PV} := {
  (** [model.coef_], a numpy array *)
  Coef : Type;
  (** [coef_[0]] *)
  coef_row0 : Coef -> result Coef;
  (** [coef_[i]] used as a number *)
  coef_at : Coef -> nat -> result Float;
  support_mask : FittedPipeline -> option (list bool);
  dv_feature_names : FittedPipeline -> list string;
  final_model_name : FittedPipeline -> string;
  final_model_coef : FittedPipeline -> Coef;
  final_model_feature_ranges : FittedPipeline -> list Float;
  (** [model.feature_importances_]; raises when the model has none *)
  final_model_feature_importances : FittedPipeline -> result (list Float);
  (** [x * y], [abs(x)], [round(x, 4)] and [str(x)] on floats *)
  float_mul : Float -> Float -> Float;
  float_abs : Float -> Float;
  float_round4 : Float -> Float;
  float_str : Float -> string
}.

Section AnalyticsPrinters.
Context {PV : PyValues} {SK : @Sklearn PV} {AN : @Analytics PV SK}.

Definition newline : string := String (ascii_of_nat 10) EmptyString.

(** [l[i]] on a Python list or a one-dimensional array, [i >= 0]. *)
Definition py_index {A} (l : list A) (i : nat) : result A :=
  match nth_error l i with
  | Some x => Ok x
  | None => Err IndexError
  end.

(** [[name for idx, name in enumerate(names) if selected_indices[idx]]] *)
Fixpoint select_by_mask (idx : nat) (names : list string)
  (selected_indices : list bool) : result (list string) :=
  match names with
  | [] => Ok []
  | name :: rest =>
      match py_index selected_indices idx with
      | Err e => Err e
      | Ok keep =>
          match select_by_mask (S idx) rest selected_indices with
          | Err e => Err e
          | Ok l => Ok (if keep then name :: l else l)
          end
      end
  end.

(** The [if self.trained_pipeline.named_steps.get('feature_selection',
    False)] block shared by the printers. *)
Definition trained_feature_names_of (tp : FittedPipeline) : result (list string) :=
  match support_mask tp with
  | Some selected_indices => select_by_mask 0 (dv_feature_names tp) selected_indices
  | None => Ok (dv_feature_names tp)
  end.

(** [sorted(l, key=key)]: a stable ascending sort.  For a strict total
    order on the keys Python's sort returns the same list as this insertion
    sort, which puts each entry after every earlier entry whose key is not
    larger. *)
Fixpoint insert_by {A} (key : A -> Float) (x : A) (l : list A) : list A :=
  match l with
  | [] => [x]
  | y :: t =>
      if float_lt (key x) (key y) then x :: y :: t else y :: insert_by key x t
  end.

Definition sorted_by {A} (key : A -> Float) (l : list A) : list A :=
  fold_left (fun acc x => insert_by key x acc) l [].

(** [l[-n:]] *)
Definition last_n {A} (n : nat) (l : list A) : list A :=
  skipn (List.length l - n) l.

(** The loop building [feature_summary]: [(feature_name,
    trained_coefficients[col_idx], potential_impact)] with
    [potential_impact = feature_ranges[col_idx] * trained_coefficients[col_idx]]. *)
Fixpoint feature_summary_loop (col_idx : nat) (names : list string)
  (trained_coefficients : Coef) (feature_ranges : list Float)
  : result (list (string * Float * Float)) :=
  match names with
  | [] => Ok []
  | feature_name :: rest =>
      match py_index feature_ranges col_idx with
      | Err e => Err e
      | Ok r =>
          match coef_at trained_coefficients col_idx with
          | Err e => Err e
          | Ok c =>
              match feature_summary_loop (S col_idx) rest trained_coefficients
                      feature_ranges with
              | Err e => Err e
              | Ok t => Ok ((feature_name, c, float_mul r c) :: t)
              end
          end
      end
  end.

Definition results_header (tp : FittedPipeline) : out_line :=
  OutText (newline ++ newline ++ "Here are the results from our " ++
           final_model_name tp).

Definition regression_intro : list out_line :=
  [OutText "The following is a list of feature names and their coefficients. This is followed by calculating a reasonable range for each feature, and multiplying by that feature's coefficient, to get an idea of the scale of the possible impact from this feature.";
   OutText "This printed list will contain at most the top 50 features."].

Definition summary_lines (summary : string * Float * Float) : list out_line :=
  let '(name, coef, impact) := summary in
  [OutText (name ++ ": " ++ float_str (float_round4 coef));
   OutText ("The potential impact of this feature is: " ++
            float_str (float_round4 impact))].

Definition _print_ml_analytics_results_regression : M unit :=
  tp <- sm_attr trained_pipeline ;;
  sm_modify (print [results_header tp]) ;;;
  trained_feature_names <- sm_lift (trained_feature_names_of tp) ;;
  ty <- sm_gets type_of_estimator ;;
  trained_coefficients <- (if String.eqb ty "classifier"
                           then sm_lift (coef_row0 (final_model_coef tp))
                           else sm_ret (final_model_coef tp)) ;;
  let feature_ranges := final_model_feature_ranges tp in
  feature_summary <- sm_lift (feature_summary_loop 0 trained_feature_names
                               trained_coefficients feature_ranges) ;;
  let sorted_feature_summary :=
    sorted_by (fun s => float_abs (snd s)) feature_summary in
  sm_modify (print regression_intro) ;;;
  sm_modify (print (flat_map summary_lines (last_n 50 sorted_feature_summary))).



End AnalyticsPrinters.

(** ** A small concrete runtime on which the definitions evaluate

    Floats are integers, cell values are strings, [float] and [int] accept
    decimal digit strings, and the scikit-learn side returns fixed values:
    every fitted object is a number. *)

Fixpoint digits_value (s : string) (acc : Z) : option Z :=
  match s with
  | EmptyString => Some acc
  | String c t =>
      let n := Z.of_nat (nat_of_ascii c) in
      if (48 <=? n) && (n <=? 57) then digits_value t (acc * 10 + (n - 48))
      else None
  end.

Definition parse_decimal (s : string) : option Z :=
  match s with
  | EmptyString => None
  | _ => digits_value s 0
  end.

#[export] Instance toy_values : PyValues := {|
  Float := Z;
  Val := string;
  UserFunc := unit;
  py_float := parse_decimal;
  py_int := parse_decimal;
  float_lt := Z.ltb;
  float_le_zero := fun x => x <=? 0;
  float_of_int := fun z => z;
  ln := Z.log2;
  raw_math_log := fun _ => Err TypeError;
  math_exp := fun x => Ok x
|}.

#[export] Instance toy_sklearn : Sklearn := {|
  FittedPipeline := nat;
  GridSearch := nat;
  grid_search_fit := fun ppl _ _ _ _ => Ok (List.length ppl);
  best_estimator_ := fun g => g;
  best_score_ := fun g => Z.of_nat g;
  pipeline_predict := fun _ data => Ok (PySeq (map (fun _ => PyFloat 2) data));
  call_scorer := fun _ _ _ _ _ => Ok 0;
  pipeline_score := fun _ _ _ => Ok 0;
  print_ml_analytics_results_regression := fun _ _ => Ok tt;
  print_ml_analytics_results_random_forest := fun _ => Ok tt;
  utils_write_gs_param_results_to_file := fun _ _ => Ok tt
|}.

Definition toy_init (type_of_estimator : string) : predictor :=
  match __init__ type_of_estimator
          [("y", "output"); ("signup_date", "date"); ("age", "numeric")] true
  with
  | Ok p => p
  | Err _ => mk_predictor "" [] true None None [] false None None None None
               None []
  end.

(** The spec's example records. *)
Definition example_rows : list row :=
  [[("y", "10"); ("signup_date", "2020-01-01"); ("age", "34")];
   [("y", "bad"); ("signup_date", "2020-02-01"); ("age", "41")]].

Definition toy_cfg (cp : Z) : train_config := {|
  write_gs_param_results_to_file := true;
  compute_power := cp;
  ml_for_analytics := true;
  only_analytics := false;
  X_test := None;
  y_test := None;
  print_training_summary_to_viewer := true
|}.

(** Concrete inputs used below. *)

Definition regressor_at (cp : Z) : predictor :=
  set_train_cfg (Some (toy_cfg cp)) (toy_init "regressor").

Definition classifier_at (cp : Z) : predictor :=
  set_train_cfg (Some (toy_cfg cp)) (toy_init "classifier").

(** Two per-family results tied on the holdout score. *)
Definition tied_first : gs_result :=
  {| holdout_score := Some 5; cv_best_score := 1; grid_search := 1%nat |}.

Definition tied_second : gs_result :=
  {| holdout_score := Some 5; cv_best_score := 9; grid_search := 2%nat |}.

Definition tied_state : predictor :=
  set_grid_search_pipelines (Some [tied_first; tied_second]) (regressor_at 3).

Definition label_rows : list row :=
  [[("y", "1"); ("age", "34")]; [("y", "x"); ("age", "41")]].

Definition zero_target_rows : list row :=
  [[("y", "0"); ("age", "34")]].

Definition log_trained : predictor :=
  set_took_log_of_y true
    (set_trained_pipeline (Some 0%nat) (toy_init "regressor")).

#[export] Instance toy_proba : SklearnProba := {|
  pipeline_predict_proba := fun _ data => Ok (PySeq (map (fun _ => PyFloat 1) data))
|}.

(** Trained pipeline [0] has a feature-selection step keeping the first
    and third of its three features, the others have none; every final model
    has coefficients [3; -5], feature ranges [1; 1] and importances
    [2; 7; 1]. *)
#[export] Instance toy_analytics : Analytics := {|
  Coef := list Z;
  coef_row0 := fun c => Ok c;
  coef_at := fun c i => py_index c i;
  support_mask := fun tp => if Nat.eqb tp 0 then Some [true; false; true] else None;
  dv_feature_names := fun _ => ["a"; "b"; "c"];
  final_model_name := fun _ => "Ridge";
  final_model_coef := fun _ => [3; -5];
  final_model_feature_ranges := fun _ => [1; 1];
  final_model_feature_importances := fun _ => Ok [2; 7; 1];
  float_mul := Z.mul;
  float_abs := Z.abs;
  float_round4 := fun z => z;
  float_str := fun z => DecimalString.NilZero.string_of_int (Z.to_int z)
|}.

(** The same runtime with a pipeline whose [predict] returns
    [list(enumerate(...))] of its values. *)
Definition toy_sklearn_pairs : @Sklearn toy_values := {|
  FittedPipeline := nat;
  GridSearch := nat;
  grid_search_fit := fun ppl _ _ _ _ => Ok (List.length ppl);
  best_estimator_ := fun g => g;
  best_score_ := fun g => Z.of_nat g;
  pipeline_predict := fun _ data =>
    Ok (PySeq (enumerated (map (fun _ => PyFloat 2) data)));
  call_scorer := fun _ _ _ _ _ => Ok 0;
  pipeline_score := fun _ _ _ => Ok 0;
  print_ml_analytics_results_regression := fun _ _ => Ok tt;
  print_ml_analytics_results_random_forest := fun _ => Ok tt;
  utils_write_gs_param_results_to_file := fun _ _ => Ok tt
|}.

Definition log_trained_pairs : @predictor toy_values toy_sklearn_pairs :=
  @mk_predictor toy_values toy_sklearn_pairs "regressor" [] true (Some 0%nat)
    (Some RmseScoring) [] true (Some "y") None None None (Some true) [].

(** Column roles with two [output] entries and one [date] entry. *)
Definition mixed_roles : list (string * string) :=
  [("a", "OUTPUT"); ("d", "Date"); ("b", "output"); ("n", "numeric")].

(** [train]'s defaults with [model_names=[]]. *)
Definition kw_empty_model_names : train_kwargs := {|
  kw_user_input_func := None;
  kw_optimize_entire_pipeline := false;
  kw_optimize_final_model := false;
  kw_write_gs_param_results_to_file := true;
  kw_perform_feature_selection := true;
  kw_verbose := true;
  kw_X_test := None;
  kw_y_test := None;
  kw_print_training_summary_to_viewer := true;
  kw_ml_for_analytics := true;
  kw_only_analytics := false;
  kw_compute_power := 3;
  kw_take_log_of_y := true;
  kw_model_names := Some []
|}.

(** A later [train] call asking for no log transform. *)
Definition kw_no_log : train_kwargs := {|
  kw_user_input_func := None;
  kw_optimize_entire_pipeline := false;
  kw_optimize_final_model := false;
  kw_write_gs_param_results_to_file := true;
  kw_perform_feature_selection := true;
  kw_verbose := true;
  kw_X_test := None;
  kw_y_test := None;
  kw_print_training_summary_to_viewer := true;
  kw_ml_for_analytics := true;
  kw_only_analytics := false;
  kw_compute_power := 3;
  kw_take_log_of_y := false;
  kw_model_names := None
|}.

(** * Properties *)

Section Proofs.
Context {PV : PyValues} {SK : @Sklearn PV}.

Ltac sm_unfold :=
  unfold get_cfg, sm_bind, sm_ret, sm_raise, sm_lift, sm_gets, sm_modify,
    sm_attr in *.

(** ** Construction *)

(** C6: every estimator-kind string is either normalised (case-insensitively)
    to exactly ["regressor"] or ["classifier"] from its synonym set, or
    construction raises [ValueError] because it is in neither set. *)
Theorem init_normalizes_type_of_estimator (s : string)
  (cds : list (string * string)) (v : bool) :
  match __init__ s cds v with
  | Ok p =>
      (str_in (lower s) regressor_synonyms = true /\
       type_of_estimator p = "regressor") \/
      (str_in (lower s) regressor_synonyms = false /\
       str_in (lower s) classifier_synonyms = true /\
       type_of_estimator p = "classifier")
  | Err e =>
      e = ValueError /\ str_in (lower s) regressor_synonyms = false /\
      str_in (lower s) classifier_synonyms = false
  end.
Proof.
  unfold __init__.
  destruct (str_in (lower s) regressor_synonyms) eqn:Hr.
  - destruct (scan_columns cds None []) as [[cds' oc] dcs]; simpl; auto.
  - destruct (str_in (lower s) classifier_synonyms) eqn:Hc.
    + destruct (scan_columns cds None []) as [[cds' oc] dcs]; simpl; auto.
    + auto.
Qed.

(** ** Pipeline construction *)

(** C8: for every choice of switches and user transform, the stage names
    are: optional [user_func] and [date_feature_engineering], then the
    mandatory [basic_transform], optional [scaler], mandatory [dv], optional
    [feature_selection] and the mandatory [final_model] last; the names are
    distinct; [user_func] comes first exactly when a transform is given;
    [date_feature_engineering] is present exactly when a date column is
    registered; each optional stage is present exactly when its switch is
    on; and the last stage is the final estimator. *)
Theorem construct_pipeline_stage_order (self : predictor)
  (user_input_func : option UserFunc) (model_name : string)
  (optimize_final_model perform_feature_selection impute_missing_values
   ml_for_analytics perform_feature_scaling : bool) :
  let ppl := _construct_pipeline self user_input_func model_name
               optimize_final_model perform_feature_selection
               impute_missing_values ml_for_analytics
               perform_feature_scaling in
  let names := map fst ppl in
  (exists pre mid post,
      names = pre ++ "basic_transform" :: mid ++ "dv" :: post ++ ["final_model"]
      /\ incl pre ["user_func"; "date_feature_engineering"]
      /\ incl mid ["scaler"] /\ incl post ["feature_selection"]) /\
  NoDup names /\
  (match user_input_func with
   | Some f => hd_error ppl = Some ("user_func", FunctionTransformer f)
   | None => ~ In "user_func" names
   end) /\
  (In "date_feature_engineering" names <-> date_cols self <> []) /\
  (In "scaler" names <-> perform_feature_scaling = true) /\
  (In "feature_selection" names <-> perform_feature_selection = true) /\
  last ppl ("user_func", DictVectorizer true) =
    ("final_model", FinalModelATC model_name optimize_final_model
                      (type_of_estimator self) ml_for_analytics).
Proof.
  unfold _construct_pipeline; cbv zeta.
  split.
  { exists ((match user_input_func with Some _ => ["user_func"] | None => [] end)
            ++ (if Nat.ltb 0 (List.length (date_cols self))
                then ["date_feature_engineering"] else [])),
           (if perform_feature_scaling then ["scaler"] else []),
           (if perform_feature_selection then ["feature_selection"] else []).
    destruct (date_cols self) as [|d ds];
    destruct user_input_func as [f|];
    destruct perform_feature_scaling, perform_feature_selection; simpl;
    (split; [reflexivity | repeat split]); intros x Hx; simpl in *; tauto. }
  destruct (date_cols self) as [|d ds] eqn:Hd;
  destruct user_input_func as [f|];
  destruct perform_feature_scaling, perform_feature_selection; simpl;
  (split; [| split; [| split; [| split; [| split]]]]);
  try (repeat constructor; simpl; intuition discriminate);
  try reflexivity;
  try (split; intro Hx; simpl in *; intuition (try discriminate; try congruence));
  try (intro Hx; simpl in *; intuition discriminate).
Qed.

(** ** The search space *)

Lemma dict_get_set_same {A} (d : list (string * A)) (k : string) (v : A) :
  dict_get (dict_set d k v) k = Some v.
Proof.
  induction d as [|[k' v'] t IH]; simpl.
  - rewrite String.eqb_refl; reflexivity.
  - destruct (String.eqb k k') eqn:E; simpl.
    + rewrite String.eqb_refl; reflexivity.
    + rewrite E; exact IH.
Qed.

Lemma get_compute_power_cfg (st : predictor) (c : train_config) :
  train_cfg st = Some c -> get_cfg compute_power st = (Ok (compute_power c), st).
Proof. intros Hc; sm_unfold; cbv beta; rewrite Hc; reflexivity. Qed.

Lemma get_estimator_names_reads_only (st : predictor) :
  snd (_get_estimator_names st) = st.
Proof.
  unfold _get_estimator_names; sm_unfold; simpl.
  destruct (String.eqb (type_of_estimator st) "regressor").
  - destruct (option_map compute_power (train_cfg st)) as [cp|]; simpl; auto.
    destruct (cp <? 7); reflexivity.
  - destruct (String.eqb (type_of_estimator st) "classifier"); reflexivity.
Qed.

Lemma search_params_ok (st : predictor) (c : train_config)
  (optimize_final_model : bool) (names : option (list string)) (m : params) :
  train_cfg st = Some c ->
  fst (_construct_pipeline_search_params optimize_final_model names st) = Ok m ->
  exists model_names,
    m = search_space_of optimize_final_model (compute_power c) model_names.
Proof.
  intros Hc Hm.
  unfold _construct_pipeline_search_params in Hm.
  unfold sm_bind at 1 in Hm.
  assert (Hadd : (if optimize_final_model then sm_ret true
                  else sm_bind (get_cfg compute_power)
                         (fun cp => sm_ret (5 <=? cp))) st
                 = (Ok (optimize_final_model || (5 <=? compute_power c)), st)).
  { destruct optimize_final_model; [reflexivity|].
    unfold sm_bind; rewrite (get_compute_power_cfg st c Hc); reflexivity. }
  rewrite Hadd in Hm; clear Hadd.
  unfold sm_bind at 1 in Hm; rewrite (get_compute_power_cfg st c Hc) in Hm.
  unfold sm_bind at 1 in Hm.
  destruct (truthy names).
  - unfold sm_ret at 1 in Hm.
    unfold sm_bind in Hm; rewrite (get_compute_power_cfg st c Hc) in Hm.
    simpl in Hm; injection Hm as <-.
    eexists; reflexivity.
  - pose proof (get_estimator_names_reads_only st) as Hs.
    destruct (_get_estimator_names st) as [[mn|e] st']; simpl in Hs; subst st'.
    + unfold sm_bind in Hm; rewrite (get_compute_power_cfg st c Hc) in Hm.
      simpl in Hm; injection Hm as <-.
      exists mn; reflexivity.
    + discriminate Hm.
Qed.

Lemma search_space_keys (opt : bool) (cp : Z) (mn : list string) (k : string) :
  In k (dict_keys (search_space_of opt cp mn)) <->
  (k = "final_model__perform_grid_search_on_model" /\ (opt || (5 <=? cp)) = true)
  \/ (k = "scaler__truncate_large_values" /\ (3 <=? cp) = true)
  \/ k = "final_model__model_name"
  \/ (k = "feature_selection__feature_selection_model" /\ (10 <=? cp) = true).
Proof.
  unfold search_space_of.
  destruct (opt || (5 <=? cp)), (3 <=? cp), (10 <=? cp); simpl;
    intuition (subst; auto; discriminate).
Qed.

Lemma search_space_lookup (opt : bool) (cp : Z) (mn : list string) :
  dict_get (search_space_of opt cp mn) "scaler__truncate_large_values" =
    (if 3 <=? cp then Some [PBool true; PBool false] else None) /\
  dict_get (search_space_of opt cp mn)
    "final_model__perform_grid_search_on_model" =
    (if opt || (5 <=? cp) then Some [PBool true; PBool false] else None) /\
  dict_get (search_space_of opt cp mn)
    "feature_selection__feature_selection_model" =
    (if 10 <=? cp
     then Some (map PStr ["SelectFromModel"; "GenericUnivariateSelect";
                          "KeepAll"; "RFECV"])
     else None).
Proof.
  unfold search_space_of.
  destruct (opt || (5 <=? cp)), (3 <=? cp), (10 <=? cp); simpl;
    repeat split; reflexivity.
Qed.

(** C4: a higher compute power never removes an axis from the generated
    search space, and the search space of each per-family grid search has
    the [final_model__model_name] axis with exactly that family's name. *)
Theorem search_space_monotone_and_single_family :
  (forall (st st' : predictor) (c c' : train_config)
          (opt : bool) (names : option (list string)) (m m' : params),
      train_cfg st = Some c -> train_cfg st' = Some c' ->
      compute_power c <= compute_power c' ->
      fst (_construct_pipeline_search_params opt names st) = Ok m ->
      fst (_construct_pipeline_search_params opt names st') = Ok m' ->
      incl (dict_keys m) (dict_keys m')) /\
  (forall (st : predictor) (model_name : string) (m : params),
      fst (per_family_search_params model_name st) = Ok m ->
      dict_get m "final_model__model_name" = Some [PStr model_name]).
Proof.
  split.
  - intros st st' c c' opt names m m' Hc Hc' Hle Hm Hm' k Hk.
    destruct (search_params_ok st c opt names m Hc Hm) as [mn ->].
    destruct (search_params_ok st' c' opt names m' Hc' Hm') as [mn' ->].
    apply search_space_keys in Hk; apply search_space_keys.
    destruct Hk as [[-> H5]|[[-> H3]|[->|[-> H10]]]].
    + left; split; [reflexivity|].
      destruct opt; simpl in *; [reflexivity|].
      apply Z.leb_le in H5; apply Z.leb_le; lia.
    + right; left; split; [reflexivity|].
      apply Z.leb_le in H3; apply Z.leb_le; lia.
    + right; right; left; reflexivity.
    + right; right; right; split; [reflexivity|].
      apply Z.leb_le in H10; apply Z.leb_le; lia.
  - intros st model_name m Hm.
    unfold per_family_search_params, sm_bind in Hm.
    destruct (_construct_pipeline_search_params false None st) as [[g|e] st'];
      simpl in Hm; [|discriminate].
    injection Hm as <-; apply dict_get_set_same.
Qed.

(** C5: the generated search space has the [scaler__truncate_large_values]
    axis over [[True, False]] exactly when compute power is at least 3, the
    [final_model__perform_grid_search_on_model] axis over [[True, False]]
    exactly when compute power is at least 5 or it was requested, and the
    feature-selection-strategy axis exactly when compute power is at least
    10. *)
Theorem search_space_axes_by_compute_power (st : predictor) (c : train_config)
  (opt : bool) (names : option (list string)) (m : params) :
  train_cfg st = Some c ->
  fst (_construct_pipeline_search_params opt names st) = Ok m ->
  dict_get m "scaler__truncate_large_values" =
    (if 3 <=? compute_power c then Some [PBool true; PBool false] else None) /\
  dict_get m "final_model__perform_grid_search_on_model" =
    (if opt || (5 <=? compute_power c)
     then Some [PBool true; PBool false] else None) /\
  dict_get m "feature_selection__feature_selection_model" =
    (if 10 <=? compute_power c
     then Some (map PStr ["SelectFromModel"; "GenericUnivariateSelect";
                          "KeepAll"; "RFECV"])
     else None).
Proof.
  intros Hc Hm.
  destruct (search_params_ok st c opt names m Hc Hm) as [mn ->].
  apply search_space_lookup.
Qed.

(** ** Selection of the best grid-search result *)

(** The entry a left-to-right scan keeps when it replaces the current one
    only by a strictly larger key. *)
Fixpoint first_max (h : gs_result) (l : list gs_result) : gs_result :=
  match l with
  | [] => h
  | x :: t =>
      first_max (if float_lt (first_score h) (first_score x) then x else h) t
  end.

Lemma insert_desc_head (x h : gs_result) (t : list gs_result) :
  exists rest,
    insert_desc x (h :: t) =
      (if float_lt (first_score h) (first_score x) then x else h) :: rest.
Proof.
  simpl; destruct (float_lt (first_score h) (first_score x)); eexists; reflexivity.
Qed.

Lemma sorted_head_first_max (l : list gs_result) :
  forall (h : gs_result) (acc : list gs_result),
  exists rest,
    fold_left (fun acc x => insert_desc x acc) l (h :: acc) =
      first_max h l :: rest.
Proof.
  induction l as [|x t IH]; intros h acc; cbn [fold_left first_max].
  - eexists; reflexivity.
  - destruct (insert_desc_head x h acc) as [rest Hr]; rewrite Hr.
    apply IH.
Qed.

Section StrictOrder.
Hypothesis lt_trans : forall a b c,
  float_lt a b = true -> float_lt b c = true -> float_lt a c = true.
Hypothesis lt_total : forall a b,
  float_lt a b = true \/ a = b \/ float_lt b a = true.

Lemma first_max_spec (l : list gs_result) :
  forall (pre post : list gs_result) (h : gs_result),
  Forall (fun r => float_lt (first_score r) (first_score h) = true) pre ->
  Forall (fun r => float_lt (first_score h) (first_score r) = false) post ->
  exists pre' post',
    pre ++ h :: post ++ l = pre' ++ first_max h l :: post' /\
    Forall (fun r => float_lt (first_score r) (first_score (first_max h l))
                     = true) pre' /\
    Forall (fun r => float_lt (first_score (first_max h l)) (first_score r)
                     = false) post'.
Proof.
  induction l as [|x t IH]; intros pre post h Hpre Hpost; simpl.
  - exists pre, post; rewrite app_nil_r; auto.
  - destruct (float_lt (first_score h) (first_score x)) eqn:Hhx.
    + destruct (IH (pre ++ h :: post) [] x) as [pre' [post' [Heq [H1 H2]]]].
      * apply Forall_app; split; [|constructor; [exact Hhx|]].
        -- eapply Forall_impl; [|exact Hpre]; intros r Hr.
           exact (lt_trans _ _ _ Hr Hhx).
        -- eapply Forall_impl; [|exact Hpost]; intros r Hr.
           destruct (lt_total (first_score h) (first_score r))
             as [Hc|[Hc|Hc]].
           ++ congruence.
           ++ rewrite <- Hc; exact Hhx.
           ++ exact (lt_trans _ _ _ Hc Hhx).
      * constructor.
      * exists pre', post'; split; [|auto].
        rewrite <- Heq; rewrite <- app_assoc; reflexivity.
    + destruct (IH pre (post ++ [x]) h Hpre) as [pre' [post' [Heq [H1 H2]]]].
      * apply Forall_app; split; [exact Hpost|constructor; [exact Hhx|constructor]].
      * exists pre', post'; split; [|auto].
        rewrite <- Heq; rewrite <- app_assoc; reflexivity.
Qed.

(** C1 (as the code does it): on a non-empty list of per-family results,
    the selection keeps the [best_estimator_] of the entry whose first score
    ([x[0]]: the holdout score when one was recorded, else the
    cross-validation best score) is maximal, the earliest in search order
    among entries tied on that score (every earlier entry has a strictly
    smaller first score, no later one a larger); later components are not
    compared.  Exactly that one pipeline is retained and the per-family
    results are discarded. *)
Theorem select_and_retain_first_maximal (st : predictor)
  (gsps : list gs_result) :
  grid_search_pipelines st = Some gsps -> gsps <> [] ->
  exists pre best post,
    gsps = pre ++ best :: post /\
    Forall (fun r => float_lt (first_score r) (first_score best) = true) pre /\
    Forall (fun r => float_lt (first_score best) (first_score r) = false) post /\
    select_and_retain st =
      (Ok tt, set_grid_search_pipelines None
                (set_trained_pipeline
                   (Some (best_estimator_ (grid_search best))) st)).
Proof.
  intros Hg Hne.
  destruct gsps as [|x t]; [congruence|].
  destruct (first_max_spec t [] [] x (Forall_nil _) (Forall_nil _))
    as [pre [post [Heq [H1 H2]]]].
  exists pre, (first_max x t), post; split; [exact Heq|].
  split; [exact H1|]; split; [exact H2|].
  unfold select_and_retain; sm_unfold; rewrite Hg.
  unfold sorted_desc; simpl.
  destruct (sorted_head_first_max t x []) as [rest Hr]; rewrite Hr.
  reflexivity.
Qed.

End StrictOrder.

(** ** Target preparation *)

Lemma split_output_lengths (raw : list row) (oc : string) (X : list row)
  (y : list Val) :
  split_output raw oc = Ok (X, y) ->
  List.length X = List.length raw /\ List.length y = List.length raw.
Proof.
  revert X y; induction raw as [|r rest IH]; intros X y Hs; simpl in Hs.
  - injection Hs as <- <-; auto.
  - destruct (row_pop oc r) as [[v r']|]; [|discriminate].
    destruct (split_output rest oc) as [[X' y']|e] eqn:E; [|discriminate].
    injection Hs as <- <-; simpl.
    destruct (IH X' y' eq_refl); auto.
Qed.

Lemma split_output_error (raw : list row) (oc : string) (e : exn) :
  split_output raw oc = Err e -> e = KeyError.
Proof.
  induction raw as [|r rest IH]; simpl; [discriminate|].
  destruct (row_pop oc r) as [[v r']|]; [|congruence].
  destruct (split_output rest oc) as [[X' y']|e'] eqn:E; [discriminate|].
  intros Hs; injection Hs as <-; auto.
Qed.

Lemma prepare_classifier (st : predictor) (c : train_config) (raw : list row) :
  type_of_estimator st = "classifier" -> train_cfg st = Some c ->
  _prepare_for_training raw st =
    (match output_column st with
     | None => Err AttributeError
     | Some oc =>
         match split_output raw oc with
         | Ok (X, y) => Ok (X, classifier_y y)
         | Err e => Err e
         end
     end, st).
Proof.
  intros Ht Hc; unfold _prepare_for_training; sm_unfold; cbv beta.
  rewrite Hc; simpl.
  destruct (output_column st) as [oc|]; [|reflexivity].
  destruct (split_output raw oc) as [[X y]|e]; [|reflexivity].
  rewrite Ht; reflexivity.
Qed.

Lemma prepare_regression (st : predictor) (c : train_config) (raw : list row)
  (oc : string) (X0 : list row) (y0 : list Val) :
  type_of_estimator st <> "classifier" -> train_cfg st = Some c ->
  output_column st = Some oc -> split_output raw oc = Ok (X0, y0) ->
  _prepare_for_training raw st =
    (let '(indices_to_delete, y_floats, bad_vals) := regression_y_loop 0 y0 in
     if Nat.ltb 0 (List.length indices_to_delete)
     then (Ok (keep_rows indices_to_delete 0 X0, map TFloat y_floats),
           print [OutIndices indices_to_delete; OutValues bad_vals] st)
     else (Ok (X0, map TFloat y_floats), st)).
Proof.
  intros Ht Hc Ho Hs; unfold _prepare_for_training; sm_unfold; cbv beta.
  rewrite Hc; simpl; rewrite Ho; simpl; rewrite Hs.
  destruct (String.eqb (type_of_estimator st) "classifier") eqn:E.
  - apply String.eqb_eq in E; contradiction.
  - destruct (regression_y_loop 0 y0) as [[idx fl] bad].
    destruct (Nat.ltb 0 (List.length idx)); reflexivity.
Qed.

Definition is_bad (v : Val) : bool :=
  match py_float v with Some _ => false | None => true end.

Definition parsed (y : list Val) : list Float :=
  flat_map (fun v => match py_float v with Some f => [f] | None => [] end) y.

Lemma regression_y_loop_spec (y : list Val) : forall k,
  regression_y_loop k y =
    (map fst (filter (fun p => is_bad (snd p))
                (combine (seq k (List.length y)) y)),
     parsed y, filter is_bad y).
Proof.
  unfold parsed, is_bad.
  induction y as [|v t IH]; intros k; [reflexivity|].
  simpl; rewrite IH.
  destruct (py_float v); reflexivity.
Qed.

Lemma bad_indices_ge (y : list Val) (k j : nat) :
  In j (map fst (filter (fun p => is_bad (snd p))
                   (combine (seq k (List.length y)) y))) -> (k <= j)%nat.
Proof.
  intros Hj; apply in_map_iff in Hj as [[i v] [<- Hin]].
  apply filter_In in Hin as [Hin _].
  apply in_combine_l, in_seq in Hin; simpl; lia.
Qed.

Lemma keep_rows_ext (l1 l2 : list nat) (X : list row) : forall start,
  (forall j, (start <= j)%nat -> existsb (Nat.eqb j) l1 = existsb (Nat.eqb j) l2) ->
  keep_rows l1 start X = keep_rows l2 start X.
Proof.
  induction X as [|r t IH]; intros start Hext; simpl; [reflexivity|].
  rewrite (Hext start (le_n _)).
  rewrite (IH (S start)); [reflexivity|].
  intros j Hj; apply Hext; lia.
Qed.

Lemma existsb_bad_indices (y : list Val) (k j : nat) :
  (j < k)%nat ->
  existsb (Nat.eqb j)
    (map fst (filter (fun p => is_bad (snd p))
                (combine (seq k (List.length y)) y))) = false.
Proof.
  intros Hjk; apply Bool.not_true_iff_false; intros Hin.
  apply existsb_exists in Hin as [i [Hi Heq]].
  apply Nat.eqb_eq in Heq; subst i.
  apply bad_indices_ge in Hi; lia.
Qed.

Lemma keep_rows_spec (X : list row) : forall (y : list Val) (k : nat),
  List.length X = List.length y ->
  keep_rows (map fst (filter (fun p => is_bad (snd p))
                        (combine (seq k (List.length y)) y))) k X =
  map fst (filter (fun p => negb (is_bad (snd p))) (combine X y)).
Proof.
  induction X as [|r t IH]; intros y k Hlen; [reflexivity|].
  destruct y as [|v y']; [discriminate|].
  simpl in Hlen; injection Hlen as Hlen.
  cbn [List.length seq combine filter snd map fst keep_rows].
  assert (Hrest : keep_rows
            (map fst (if is_bad v
                      then (k, v) :: filter (fun p => is_bad (snd p))
                                       (combine (seq (S k) (List.length y')) y')
                      else filter (fun p => is_bad (snd p))
                             (combine (seq (S k) (List.length y')) y')))
            (S k) t =
          map fst (filter (fun p => negb (is_bad (snd p))) (combine t y'))).
  { rewrite <- (IH y' (S k) Hlen).
    apply keep_rows_ext; intros j Hj.
    destruct (is_bad v); simpl; [|reflexivity].
    destruct (Nat.eqb j k) eqn:E; [apply Nat.eqb_eq in E; lia|reflexivity]. }
  destruct (is_bad v) eqn:Hb; simpl in Hrest |- *.
  - rewrite Nat.eqb_refl; simpl; exact Hrest.
  - rewrite (existsb_bad_indices y' (S k) k (le_n _)).
    f_equal; exact Hrest.
Qed.

Lemma kept_length (X : list row) : forall (y : list Val),
  List.length X = List.length y ->
  List.length (map fst (filter (fun p => negb (is_bad (snd p))) (combine X y)))
  = List.length (parsed y).
Proof.
  unfold parsed, is_bad.
  induction X as [|r t IH]; intros y Hlen; destruct y as [|v y'];
    try discriminate; [reflexivity|].
  simpl in Hlen; injection Hlen as Hlen; simpl.
  destruct (py_float v); simpl; rewrite <- IH by exact Hlen; reflexivity.
Qed.

Lemma parsed_shorter (y : list Val) :
  Exists (fun v => py_float v = None) y ->
  (List.length (parsed y) < List.length y)%nat.
Proof.
  unfold parsed.
  assert (Hle : forall l : list Val,
    (List.length (flat_map (fun v => match py_float v with
                                     | Some f => [f] | None => [] end) l)
     <= List.length l)%nat).
  { induction l as [|v t IH]; simpl; [lia|].
    destruct (py_float v); simpl; lia. }
  induction 1 as [v t Hv|v t _ IH]; simpl.
  - rewrite Hv; simpl; specialize (Hle t); lia.
  - destruct (py_float v); simpl; lia.
Qed.

Lemma bad_indices_nonempty (y : list Val) (k : nat) :
  Exists (fun v => py_float v = None) y ->
  (0 < List.length (map fst (filter (fun p => is_bad (snd p))
                               (combine (seq k (List.length y)) y))))%nat.
Proof.
  intros Hex; revert k; induction Hex as [v t Hv|v t _ IH]; intros k; simpl.
  - unfold is_bad at 1; rewrite Hv; simpl; lia.
  - destruct (is_bad v); simpl; [lia|apply IH].
Qed.

(** C2: for a regression target sequence with at least one value [float]
    rejects, preparation returns the records whose target parses, in order,
    with the parsed targets as floats; it reports (prints) the indices and
    the original values of the rejected targets; the feature and target
    sequences have equal length, smaller than the number of records. *)
Theorem prepare_regression_drops_unparsable_rows (st : predictor)
  (c : train_config) (raw : list row) (oc : string) (X0 : list row)
  (y0 : list Val) :
  type_of_estimator st = "regressor" -> train_cfg st = Some c ->
  output_column st = Some oc -> split_output raw oc = Ok (X0, y0) ->
  Exists (fun v => py_float v = None) y0 ->
  let X := map fst (filter (fun p => negb (is_bad (snd p))) (combine X0 y0)) in
  let y := map TFloat (parsed y0) in
  _prepare_for_training raw st =
    (Ok (X, y),
     print [OutIndices (map fst (filter (fun p => is_bad (snd p))
                                   (combine (seq 0 (List.length y0)) y0)));
            OutValues (filter is_bad y0)] st) /\
  List.length X = List.length y /\ (List.length y < List.length raw)%nat.
Proof.
  intros Ht Hc Ho Hs Hex X y.
  destruct (split_output_lengths raw oc X0 y0 Hs) as [HX Hy].
  assert (Hlen : List.length X0 = List.length y0) by congruence.
  split; [|split].
  - rewrite (prepare_regression st c raw oc X0 y0) by (try rewrite Ht; try discriminate; assumption).
    rewrite regression_y_loop_spec.
    pose proof (bad_indices_nonempty y0 0 Hex) as Hne.
    apply Nat.ltb_lt in Hne; rewrite Hne.
    rewrite keep_rows_spec by exact Hlen; reflexivity.
  - unfold X, y; rewrite (length_map TFloat); apply kept_length; exact Hlen.
  - unfold y; rewrite length_map, <- Hy; apply parsed_shorter; exact Hex.
Qed.

Lemma int_all_some (y : list Val) :
  Forall (fun v => py_int v <> None) y ->
  exists zs, int_all y = Some zs /\ Forall2 (fun v z => py_int v = Some z) y zs.
Proof.
  induction 1 as [|v t Hv _ [zs [Hzs Hf]]]; simpl.
  - exists []; auto.
  - destruct (py_int v) as [z|] eqn:E; [|congruence].
    rewrite Hzs; exists (z :: zs); simpl; auto.
Qed.

Lemma int_all_none (y : list Val) :
  Exists (fun v => py_int v = None) y -> int_all y = None.
Proof.
  induction 1 as [v t Hv|v t _ IH]; simpl.
  - rewrite Hv; reflexivity.
  - destruct (py_int v); [rewrite IH|]; reflexivity.
Qed.

(** C7 (as the code does it): classification targets are coerced all or
    nothing.  When every target converts with [int], the targets become
    those integers; when any one fails, the whole target sequence is kept
    with its original values, none converted.  Preparation does not fail
    there and drops no record. *)
Theorem prepare_classifier_all_or_nothing (st : predictor) (c : train_config)
  (raw : list row) (oc : string) (X0 : list row) (y0 : list Val) :
  type_of_estimator st = "classifier" -> train_cfg st = Some c ->
  output_column st = Some oc -> split_output raw oc = Ok (X0, y0) ->
  List.length X0 = List.length raw /\
  (Forall (fun v => py_int v <> None) y0 ->
   exists zs, _prepare_for_training raw st = (Ok (X0, map TInt zs), st) /\
              Forall2 (fun v z => py_int v = Some z) y0 zs) /\
  (Exists (fun v => py_int v = None) y0 ->
   _prepare_for_training raw st = (Ok (X0, map TRaw y0), st)).
Proof.
  intros Ht Hc Ho Hs.
  rewrite (prepare_classifier st c raw Ht Hc), Ho, Hs.
  split; [apply (split_output_lengths raw oc X0 y0 Hs)|split].
  - intros Hall; destruct (int_all_some y0 Hall) as [zs [Hzs Hf]].
    exists zs; unfold classifier_y; rewrite Hzs; auto.
  - intros Hex; unfold classifier_y; rewrite (int_all_none y0 Hex); reflexivity.
Qed.

(** ** [train] on a classifier *)

Lemma init_classifier_state (s : string) (cds : list (string * string))
  (v : bool) (p : predictor) :
  __init__ s cds v = Ok p -> type_of_estimator p = "classifier" ->
  classifier_state p.
Proof.
  unfold __init__, classifier_state; intros Hi Ht; split; [exact Ht|].
  destruct (str_in (lower s) regressor_synonyms);
    [|destruct (str_in (lower s) classifier_synonyms); [|discriminate]];
    destruct (scan_columns cds None []) as [[cds' oc] dcs];
    injection Hi as <-; reflexivity.
Qed.

(** C9 (as the code does it): a [Predictor] constructed as a classifier
    never has its [take_log_of_y] attribute set, and every call of [train]
    on it raises before any pipeline is built or searched: [AttributeError]
    when [self.take_log_of_y] is read (or earlier, [AttributeError] or
    [KeyError] when the output column is missing), so no classifier
    pipeline is ever trained and the instance stays in that state. *)
Theorem classifier_train_always_raises :
  (forall s cds v p,
      __init__ s cds v = Ok p -> type_of_estimator p = "classifier" ->
      classifier_state p) /\
  (forall (st : predictor) (raw : list row) (kw : train_kwargs),
      classifier_state st ->
      (fst (train raw kw st) = Err AttributeError \/
       fst (train raw kw st) = Err KeyError) /\
      classifier_state (snd (train raw kw st)) /\
      trained_pipeline (snd (train raw kw st)) = trained_pipeline st /\
      grid_search_pipelines (snd (train raw kw st)) = grid_search_pipelines st).
Proof.
  split; [exact init_classifier_state|].
  intros st raw kw [Ht Hn].
  unfold train.
  remember (_prepare_for_training raw) as prep eqn:Hprep.
  sm_unfold; simpl.
  rewrite Ht; simpl.
  subst prep.
  erewrite prepare_classifier by (first [exact Ht | reflexivity]); simpl.
  destruct (output_column st) as [oc|]; simpl.
  - destruct (split_output raw oc) as [[X y]|e] eqn:Hs; simpl.
    + rewrite Hn; unfold classifier_state; simpl; auto.
    + rewrite (split_output_error raw oc e Hs).
      unfold classifier_state; simpl; auto.
  - unfold classifier_state; simpl; auto.
Qed.

(** ** [train] on a regressor with the log transform *)

Lemma map_result_log_error (l : list Float) :
  Exists (fun f => float_le_zero f = true) l ->
  map_result math_log (map TFloat l) = Err ValueError.
Proof.
  induction 1 as [f t Hf|f t _ IH]; simpl; unfold math_log_float.
  - rewrite Hf; reflexivity.
  - destruct (float_le_zero f); [reflexivity|].
    rewrite IH; reflexivity.
Qed.

Lemma parsed_exists_nonpositive (y : list Val) :
  Exists (fun v => exists f, py_float v = Some f /\ float_le_zero f = true) y ->
  Exists (fun f => float_le_zero f = true) (parsed y).
Proof.
  unfold parsed.
  induction 1 as [v t [f [Hv Hf]]|v t _ IH]; simpl.
  - rewrite Hv; simpl; apply Exists_cons_hd; exact Hf.
  - apply Exists_app; right; exact IH.
Qed.

(** C10: training a regressor with [take_log_of_y] true, when a cleaned
    target value is at most zero, raises [ValueError] (math domain error)
    while taking logarithms, before any pipeline is built or searched:
    [trained_pipeline], [took_log_of_y] and the grid-search attributes keep
    their values. *)
Theorem train_log_nonpositive_target_raises (st : predictor) (raw : list row)
  (kw : train_kwargs) (oc : string) (X0 : list row) (y0 : list Val) :
  type_of_estimator st = "regressor" -> kw_take_log_of_y kw = true ->
  output_column st = Some oc -> split_output raw oc = Ok (X0, y0) ->
  Exists (fun v => exists f, py_float v = Some f /\ float_le_zero f = true) y0 ->
  fst (train raw kw st) = Err ValueError /\
  trained_pipeline (snd (train raw kw st)) = trained_pipeline st /\
  took_log_of_y (snd (train raw kw st)) = took_log_of_y st /\
  grid_search_pipelines (snd (train raw kw st)) = grid_search_pipelines st /\
  grid_search_params (snd (train raw kw st)) = grid_search_params st.
Proof.
  intros Ht Hk Ho Hs Hex.
  unfold train.
  remember (_prepare_for_training raw) as prep eqn:Hprep.
  sm_unfold; simpl.
  rewrite Ht; simpl.
  subst prep.
  erewrite prepare_regression
    by (first [ simpl; rewrite Ht; discriminate | reflexivity | exact Ho
              | exact Hs ]).
  rewrite regression_y_loop_spec.
  pose proof (map_result_log_error _ (parsed_exists_nonpositive y0 Hex)) as Hlog.
  destruct (Nat.ltb 0 _); simpl; rewrite Hk, Hlog; simpl; auto.
Qed.

(** ** [predict] *)

(** C3 (the code's behaviour): once the log transform was applied, a
    pipeline output that is a flat sequence of floats, the shape a
    regressor returns, makes [predict] raise [TypeError] at its first
    element: [for idx, val in predicted_vals] unpacks each float into two
    names. *)
Theorem predict_after_log_raises_on_flat_output (st : predictor)
  (p : FittedPipeline) (prediction_data : list row) (x : Float)
  (rest : list pyval) :
  trained_pipeline st = Some p -> took_log_of_y st = true ->
  pipeline_predict p prediction_data = Ok (PySeq (PyFloat x :: rest)) ->
  fst (predict prediction_data st) = Err TypeError.
Proof.
  intros Hp Hl Hpred.
  unfold predict; sm_unfold; rewrite Hp; simpl.
  rewrite Hpred, Hl; reflexivity.
Qed.

End Proofs.

(** * Evaluations on the concrete runtime *)

Example init_synonyms :
  type_of_estimator (toy_init "Regression") = "regressor" /\
  type_of_estimator (toy_init "LABELS") = "classifier" /\
  __init__ "ranker" [] true = Err ValueError.
Proof. repeat split; reflexivity. Qed.

Example train_regressor_runs :
  fst (train example_rows train_defaults (toy_init "regressor")) = Ok tt.
Proof. reflexivity. Qed.

(** Witness of C1. *)
Lemma select_and_retain_first_maximal_witness :
  grid_search_pipelines tied_state = Some [tied_first; tied_second] /\
  exists pre best post,
    [tied_first; tied_second] = pre ++ best :: post /\
    Forall (fun r => float_lt (first_score r) (first_score best) = true) pre /\
    Forall (fun r => float_lt (first_score best) (first_score r) = false) post /\
    select_and_retain tied_state =
      (Ok tt, set_grid_search_pipelines None
                (set_trained_pipeline
                   (Some (best_estimator_ (grid_search best))) tied_state)).
Proof.
  split; [reflexivity|].
  apply select_and_retain_first_maximal.
  - intros a b c H1 H2; simpl in *.
    apply Z.ltb_lt in H1, H2; apply Z.ltb_lt; lia.
  - intros a b; simpl.
    destruct (Z.lt_trichotomy a b) as [Hc|[Hc|Hc]].
    + left; apply Z.ltb_lt; exact Hc.
    + right; left; exact Hc.
    + right; right; apply Z.ltb_lt; exact Hc.
  - reflexivity.
  - discriminate.
Defined.

(** Counterexample to C1: two results tie on the holdout score and differ
    on the cross-validation score; the tuple [[5, 9]] of the second is
    lexicographically greater than [[5, 1]], yet the first one's pipeline is
    retained. *)
Lemma select_and_retain_not_lexicographic :
  trained_pipeline (snd (select_and_retain tied_state)) =
    Some (best_estimator_ (grid_search tied_first)) /\
  grid_search_pipelines tied_state = Some [tied_first; tied_second] /\
  lex_lt (spec_score_tuple tied_first) (spec_score_tuple tied_second) = true /\
  best_estimator_ (grid_search tied_first) <>
    best_estimator_ (grid_search tied_second).
Proof.
  repeat split; try reflexivity.
  simpl; discriminate.
Qed.

(** Witness of C2, at the spec's example. *)
Lemma prepare_regression_drops_unparsable_rows_witness :
  split_output example_rows "y" =
    Ok ([[("signup_date", "2020-01-01"); ("age", "34")];
         [("signup_date", "2020-02-01"); ("age", "41")]], ["10"; "bad"]) /\
  _prepare_for_training example_rows (regressor_at 3) =
    (Ok ([[("signup_date", "2020-01-01"); ("age", "34")]], [TFloat 10]),
     print [OutIndices [1%nat]; OutValues ["bad"]] (regressor_at 3)).
Proof.
  split; [reflexivity|].
  destruct (prepare_regression_drops_unparsable_rows (regressor_at 3)
              (toy_cfg 3) example_rows "y"
              [[("signup_date", "2020-01-01"); ("age", "34")];
               [("signup_date", "2020-02-01"); ("age", "41")]]
              ["10"; "bad"] eq_refl eq_refl eq_refl eq_refl
              ltac:(apply Exists_cons_tl, Exists_cons_hd; reflexivity))
    as [Heq _].
  exact Heq.
Defined.

(** Failing input of C3: a regressor with [took_log_of_y] whose pipeline
    predicts [[2.0]]. *)
Lemma predict_after_log_raises_on_flat_output_witness :
  trained_pipeline log_trained = Some 0%nat /\
  took_log_of_y log_trained = true /\
  fst (predict [[("age", "34")]] log_trained) = Err TypeError.
Proof.
  split; [reflexivity|]; split; [reflexivity|].
  apply (predict_after_log_raises_on_flat_output log_trained 0%nat
           [[("age", "34")]] 2 []); reflexivity.
Defined.

(** Witness of C4: compute power 3 and 10. *)
Lemma search_space_monotone_and_single_family_witness :
  exists m m' mf,
    fst (_construct_pipeline_search_params false None (regressor_at 3)) = Ok m /\
    fst (_construct_pipeline_search_params false None (regressor_at 10)) = Ok m' /\
    fst (per_family_search_params "Ridge" (regressor_at 3)) = Ok mf /\
    incl (dict_keys m) (dict_keys m') /\
    dict_get mf "final_model__model_name" = Some [PStr "Ridge"].
Proof.
  do 3 eexists; split; [reflexivity|]; split; [reflexivity|];
    split; [reflexivity|]; split.
  - apply (proj1 search_space_monotone_and_single_family
             (regressor_at 3) (regressor_at 10) (toy_cfg 3) (toy_cfg 10)
             false None); try reflexivity; simpl; lia.
  - apply (proj2 search_space_monotone_and_single_family (regressor_at 3));
      reflexivity.
Defined.

(** Witness of C5: compute power 5 without the explicit request. *)
Lemma search_space_axes_by_compute_power_witness :
  exists m,
    fst (_construct_pipeline_search_params false None (regressor_at 5)) = Ok m /\
    dict_get m "scaler__truncate_large_values" = Some [PBool true; PBool false] /\
    dict_get m "final_model__perform_grid_search_on_model" =
      Some [PBool true; PBool false] /\
    dict_get m "feature_selection__feature_selection_model" = None.
Proof.
  eexists; split; [reflexivity|].
  apply (search_space_axes_by_compute_power (regressor_at 5) (toy_cfg 5)
           false None); reflexivity.
Defined.

(** Counterexample to C7: with targets ["1"] and ["x"], the value ["1"] is
    not converted because ["x"] fails. *)
Lemma prepare_classifier_not_per_record :
  fst (_prepare_for_training label_rows (classifier_at 3)) =
    Ok ([[("age", "34")]; [("age", "41")]], [TRaw "1"; TRaw "x"]) /\
  fst (_prepare_for_training label_rows (classifier_at 3)) <>
    Ok ([[("age", "34")]; [("age", "41")]], map per_record_int ["1"; "x"]).
Proof.
  assert (E : fst (_prepare_for_training label_rows (classifier_at 3)) =
              Ok ([[("age", "34")]; [("age", "41")]], [TRaw "1"; TRaw "x"]))
    by reflexivity.
  split; [exact E|]; rewrite E; simpl; discriminate.
Qed.

(** Witness of C7. *)
Lemma prepare_classifier_all_or_nothing_witness :
  split_output label_rows "y" =
    Ok ([[("age", "34")]; [("age", "41")]], ["1"; "x"]) /\
  _prepare_for_training label_rows (classifier_at 3) =
    (Ok ([[("age", "34")]; [("age", "41")]], map TRaw ["1"; "x"]),
     classifier_at 3).
Proof.
  split; [reflexivity|].
  apply (prepare_classifier_all_or_nothing (classifier_at 3) (toy_cfg 3)
           label_rows "y" [[("age", "34")]; [("age", "41")]] ["1"; "x"]
           eq_refl eq_refl eq_refl eq_refl).
  apply Exists_cons_tl, Exists_cons_hd; reflexivity.
Defined.

(** Counterexample to C9: the first error of [train] on a classifier is
    the [AttributeError] of [self.take_log_of_y], not the [NameError] of
    [_get_estimator_names]. *)
Lemma classifier_train_attribute_error :
  fst (train example_rows train_defaults (toy_init "classifier")) =
    Err AttributeError /\
  fst (train example_rows train_defaults (toy_init "classifier")) <>
    Err NameError.
Proof.
  assert (E : fst (train example_rows train_defaults (toy_init "classifier")) =
              Err AttributeError) by reflexivity.
  split; [exact E|]; rewrite E; discriminate.
Qed.

(** Witness of C9. *)
Lemma classifier_train_always_raises_witness :
  __init__ "classifier"
    [("y", "output"); ("signup_date", "date"); ("age", "numeric")] true =
    Ok (toy_init "classifier") /\
  classifier_state (toy_init "classifier") /\
  (fst (train example_rows train_defaults (toy_init "classifier")) =
     Err AttributeError \/
   fst (train example_rows train_defaults (toy_init "classifier")) =
     Err KeyError).
Proof.
  assert (Hi : __init__ "classifier"
                 [("y", "output"); ("signup_date", "date"); ("age", "numeric")]
                 true = Ok (toy_init "classifier")) by reflexivity.
  assert (Hs : classifier_state (toy_init "classifier")).
  { apply (proj1 classifier_train_always_raises _ _ _ _ Hi); reflexivity. }
  split; [exact Hi|]; split; [exact Hs|].
  apply (proj2 classifier_train_always_raises _ example_rows train_defaults Hs).
Defined.

(** Witness of C10: a regression target ["0"]. *)
Lemma train_log_nonpositive_target_raises_witness :
  split_output zero_target_rows "y" = Ok ([[("age", "34")]], ["0"]) /\
  fst (train zero_target_rows train_defaults (toy_init "regressor")) =
    Err ValueError.
Proof.
  split; [reflexivity|].
  apply (train_log_nonpositive_target_raises (toy_init "regressor")
           zero_target_rows train_defaults "y" [[("age", "34")]] ["0"]);
    try reflexivity.
  apply Exists_cons_hd; exists 0; split; reflexivity.
Defined.

(** * Further properties of the code *)

Section Extras.
Context {PV : PyValues} {SK : @Sklearn PV}.

Ltac unfold_sm :=
  unfold get_cfg, sm_bind, sm_ret, sm_raise, sm_lift, sm_gets, sm_modify,
    sm_attr in *.

(** ** Reasoning about the state monad *)

(** [m] preserves the state predicate [P], whether it returns or raises. *)
Definition keeps (P : predictor -> Prop) {A} (m : M A) : Prop :=
  forall st, P st -> P (snd (m st)).



Lemma keeps_bind (P : predictor -> Prop) {A B} (m : M A) (k : A -> M B) :
  keeps P m -> (forall a, keeps P (k a)) -> keeps P (sm_bind m k).
Proof.
  intros Hm Hk st Hst; unfold sm_bind.
  specialize (Hm st Hst); destruct (m st) as [[a|e] st']; simpl in *.
  - apply Hk; exact Hm.
  - exact Hm.
Qed.

Lemma keeps_ret (P : predictor -> Prop) {A} (a : A) : keeps P (sm_ret a).
Proof. intros st H; exact H. Qed.

Lemma keeps_raise (P : predictor -> Prop) {A} (e : exn) :
  keeps P (sm_raise (A := A) e).
Proof. intros st H; exact H. Qed.

Lemma keeps_lift (P : predictor -> Prop) {A} (r : result A) :
  keeps P (sm_lift r).
Proof. intros st H; exact H. Qed.

Lemma keeps_gets (P : predictor -> Prop) {A} (f : predictor -> A) :
  keeps P (sm_gets f).
Proof. intros st H; exact H. Qed.

Lemma keeps_attr (P : predictor -> Prop) {A} (f : predictor -> option A) :
  keeps P (sm_attr f).
Proof. intros st H; unfold sm_attr; destruct (f st); exact H. Qed.

Lemma keeps_modify (P : predictor -> Prop) (f : predictor -> predictor) :
  (forall s, P s -> P (f s)) -> keeps P (sm_modify f).
Proof. intros Hf st H; apply Hf; exact H. Qed.







Ltac keeps_solve :=
  repeat (cbv beta zeta;
    match goal with
    | |- keeps _ (sm_bind _ _) => apply keeps_bind; [|intro]
    | |- keeps _ (sm_ret _) => apply keeps_ret
    | |- keeps _ (sm_raise _) => apply keeps_raise
    | |- keeps _ (sm_lift _) => apply keeps_lift
    | |- keeps _ (sm_gets _) => apply keeps_gets
    | |- keeps _ (sm_attr _) => apply keeps_attr
    | |- keeps _ (get_cfg _) => apply keeps_attr
    | |- keeps _ (sm_modify _) => apply keeps_modify; intros ? ?
    | |- keeps _ (if ?b then _ else _) => destruct b
    | |- keeps _ (match ?x with _ => _ end) => destruct x
    end).

(** The methods that only read the instance. *)
Lemma keeps_get_estimator_names (P : predictor -> Prop) :
  keeps P _get_estimator_names.
Proof. unfold _get_estimator_names; keeps_solve. Qed.

Lemma keeps_search_params (P : predictor -> Prop) opt names :
  keeps P (_construct_pipeline_search_params opt names).
Proof.
  unfold _construct_pipeline_search_params; keeps_solve;
    apply keeps_get_estimator_names.
Qed.

Lemma keeps_per_family (P : predictor -> Prop) name :
  keeps P (per_family_search_params name).
Proof.
  unfold per_family_search_params; keeps_solve; apply keeps_search_params.
Qed.

Lemma keeps_score (P : predictor -> Prop) X y : keeps P (score X y).
Proof. unfold score; keeps_solve. Qed.

(** [_prepare_for_training] only prints. *)
Lemma keeps_prepare (P : predictor -> Prop) raw :
  (forall l s, P s -> P (print l s)) -> keeps P (_prepare_for_training raw).
Proof. intros Hp; unfold _prepare_for_training; keeps_solve; auto. Qed.


Ltac keeps_close :=
  first [ apply keeps_get_estimator_names | apply keeps_per_family
        | apply keeps_score | apply keeps_search_params
        | apply keeps_prepare; intros ? ? ?; assumption
        | assumption | reflexivity ].

Ltac keeps_all := keeps_solve; try keeps_close.

(** ** [took_log_of_y] *)

Lemma keeps_took_log_grid_search_one ppl sc X y name :
  keeps (fun s => took_log_of_y s = true) (grid_search_one ppl sc X y name).
Proof. unfold grid_search_one; keeps_all. Qed.

Lemma keeps_took_log_loop names ppl sc X y :
  keeps (fun s => took_log_of_y s = true)
    (perform_grid_search_by_model_names names ppl sc X y).
Proof.
  induction names as [|n rest IH]; simpl; [apply keeps_ret|].
  apply keeps_bind; [apply keeps_took_log_grid_search_one|intros _; exact IH].
Qed.

(** ** [grid_search_pipelines] after [del] *)







(** once [took_log_of_y] is true, no call of [train] makes it false
    again, whatever its [take_log_of_y] argument and whether it returns or
    raises: [train] only ever assigns [True] to it (line 189). *)
Theorem train_never_resets_took_log_of_y (raw : list row) (kw : train_kwargs)
  (st : predictor) :
  took_log_of_y st = true -> took_log_of_y (snd (train raw kw st)) = true.
Proof.
  revert st; change (keeps (fun s => took_log_of_y s = true) (train raw kw)).
  unfold train; keeps_all;
    first [ apply keeps_took_log_loop | unfold select_and_retain; keeps_all ].
Qed.


(** ** [__init__]: column roles *)

Definition is_output (kv : string * string) : bool :=
  String.eqb (lower (snd kv)) "output".

Lemma scan_columns_spec (cds : list (string * string)) :
  forall oc dcs,
  scan_columns cds oc dcs =
    (map (fun kv => (fst kv, lower (snd kv))) cds,
     fold_left (fun acc kv => if is_output kv then Some (fst kv) else acc)
       cds oc,
     dcs ++ map fst (filter (fun kv => String.eqb (lower (snd kv)) "date") cds)).
Proof.
  unfold is_output.
  induction cds as [|[k v] rest IH]; intros oc dcs; simpl.
  - rewrite app_nil_r; reflexivity.
  - rewrite IH.
    destruct (String.eqb (lower v) "date"); simpl;
      [rewrite <- app_assoc; reflexivity | reflexivity].
Qed.

Lemma fold_no_output (l : list (string * string)) (acc : option string) :
  Forall (fun kv => lower (snd kv) <> "output") l ->
  fold_left (fun acc kv => if is_output kv then Some (fst kv) else acc) l acc
  = acc.
Proof.
  unfold is_output.
  revert acc; induction l as [|kv t IH]; intros acc Hf; [reflexivity|].
  inversion Hf as [|? ? Hkv Ht]; subst; simpl.
  destruct (String.eqb_spec (lower (snd kv)) "output"); [contradiction|].
  apply IH; exact Ht.
Qed.

Lemma init_fields (s : string) (cds : list (string * string)) (v : bool)
  (p : predictor) :
  __init__ s cds v = Ok p ->
  column_descriptions p = map (fun kv => (fst kv, lower (snd kv))) cds /\
  output_column p =
    fold_left (fun acc kv => if is_output kv then Some (fst kv) else acc)
      cds None /\
  date_cols p =
    map fst (filter (fun kv => String.eqb (lower (snd kv)) "date") cds) /\
  trained_pipeline p = None /\ _scorer p = None /\ took_log_of_y p = false /\
  grid_search_pipelines p = Some [].
Proof.
  unfold __init__; rewrite scan_columns_spec.
  destruct (str_in (lower s) regressor_synonyms);
    [|destruct (str_in (lower s) classifier_synonyms)];
    intros H; try discriminate; injection H as <-; simpl; repeat split.
Qed.

(** construction keeps the column roles in order with each role
    lowercased, collects the [date] columns in order, and sets
    [output_column] to the key of the last role that lowercases to
    [output]; with no such role the attribute is never set. *)
Theorem init_column_roles (s : string) (cds : list (string * string))
  (v : bool) (p : predictor) :
  __init__ s cds v = Ok p ->
  column_descriptions p = map (fun kv => (fst kv, lower (snd kv))) cds /\
  date_cols p =
    map fst (filter (fun kv => String.eqb (lower (snd kv)) "date") cds) /\
  (Forall (fun kv => lower (snd kv) <> "output") cds -> output_column p = None) /\
  (forall pre k value post,
      cds = pre ++ (k, value) :: post -> lower value = "output" ->
      Forall (fun kv => lower (snd kv) <> "output") post ->
      output_column p = Some k).
Proof.
  intros H; destruct (init_fields s cds v p H) as [Hc [Ho [Hd _]]].
  split; [exact Hc|]; split; [exact Hd|]; split.
  - intros Hf; rewrite Ho; apply fold_no_output; exact Hf.
  - intros pre k value post -> Hv Hpost.
    rewrite Ho, fold_left_app; simpl.
    unfold is_output at 2; simpl; rewrite Hv; simpl.
    apply fold_no_output; exact Hpost.
Qed.

(** ** [train] without an output column *)



(** ** [model_names] *)

(** [train(..., model_names=[])] behaves exactly as [model_names=None]:
    an empty list is falsy, so the default estimator families of
    [_get_estimator_names] are searched. *)
Theorem train_empty_model_names_is_default (raw : list row)
  (kw : train_kwargs) (st : predictor) :
  kw_model_names kw = Some [] ->
  train raw kw st = train raw (without_model_names kw) st.
Proof. intros H; destruct kw; simpl in H; subst; reflexivity. Qed.

(** ** Targets of a regression that all parse *)



(** ** [predict] on output of the shape [list(enumerate(...))] *)

Lemma setitem_at (pre post : list pyval) (x v : pyval) :
  setitem (pre ++ x :: post) (PyInt (Z.of_nat (List.length pre))) v =
    Ok (pre ++ v :: post).
Proof.
  unfold setitem.
  rewrite length_app; simpl.
  replace (Z.of_nat (List.length pre) <? 0) with false
    by (symmetry; apply Z.ltb_ge; lia).
  replace ((0 <=? Z.of_nat (List.length pre)) &&
           (Z.of_nat (List.length pre) <?
            Z.of_nat (List.length pre + S (List.length post))))%bool
    with true
    by (symmetry; apply andb_true_iff; split;
        [apply Z.leb_le | apply Z.ltb_lt]; lia).
  rewrite Nat2Z.id.
  rewrite firstn_app, Nat.sub_diag, firstn_all; simpl.
  rewrite app_nil_r; do 3 f_equal.
  clear; induction pre as [|a pre IH]; simpl; [reflexivity|exact IH].
Qed.

Lemma exp_loop_enumerated (vs : list pyval) :
  forall (fs done : list Float) (fuel : nat),
  Forall2 (fun v f => py_exp v = Ok f) vs fs ->
  (List.length vs <= fuel)%nat ->
  exp_loop fuel (List.length done)
    (map PyFloat done ++
     map (fun p => PySeq [PyInt (Z.of_nat (fst p)); snd p])
       (combine (seq (List.length done) (List.length vs)) vs)) =
    Ok (map PyFloat (done ++ fs)).
Proof.
  induction vs as [|v vs IH]; intros fs done fuel Hf Hle.
  - inversion Hf; subst; simpl; rewrite !app_nil_r.
    destruct fuel; simpl; [reflexivity|].
    replace (nth_error (map PyFloat done) (List.length done)) with
      (@None pyval) by (symmetry; apply nth_error_None; rewrite length_map; lia).
    reflexivity.
  - inversion Hf as [|? f ? fs' Hv Hrest]; subst.
    destruct fuel as [|fuel]; simpl in Hle; [lia|].
    cbn [exp_loop seq combine map Datatypes.length].
    rewrite nth_error_app2 by (rewrite length_map; lia).
    rewrite length_map, Nat.sub_diag; cbn [nth_error fst snd].
    rewrite Hv; cbv beta iota.
    replace (Z.of_nat (List.length done))
      with (Z.of_nat (List.length (map PyFloat done)))
      by (rewrite length_map; reflexivity).
    rewrite setitem_at.
    replace (map PyFloat done ++ PyFloat f :: _)
      with (map PyFloat (done ++ [f]) ++
            map (fun p => PySeq [PyInt (Z.of_nat (fst p)); snd p])
              (combine (seq (List.length (done ++ [f])) (List.length vs)) vs))
      by (rewrite map_app, <- app_assoc, length_app, Nat.add_comm; reflexivity).
    replace (S (List.length done)) with (List.length (done ++ [f]))
      by (rewrite length_app, Nat.add_comm; reflexivity).
    rewrite IH with (fs := fs') by (assumption || lia).
    rewrite <- app_assoc; reflexivity.
Qed.

(** after training with the log transform, a pipeline output of the
    shape [[[0, v0], [1, v1], ...]] is returned with each pair [[i, vi]]
    replaced by [math.exp(vi)] at position [i]; [predict] leaves the instance
    unchanged. *)
Theorem predict_exp_on_enumerated_output (st : predictor)
  (p : FittedPipeline) (prediction_data : list row) (vs : list pyval)
  (fs : list Float) :
  trained_pipeline st = Some p -> took_log_of_y st = true ->
  pipeline_predict p prediction_data = Ok (PySeq (enumerated vs)) ->
  Forall2 (fun v f => py_exp v = Ok f) vs fs ->
  predict prediction_data st = (Ok (PySeq (map PyFloat fs)), st).
Proof.
  intros Hp Hl Hpred Hf.
  unfold predict; unfold_sm; rewrite Hp; simpl.
  rewrite Hpred, Hl; simpl.
  pose proof (exp_loop_enumerated vs fs [] (List.length (enumerated vs)) Hf)
    as E.
  unfold enumerated in *; simpl in E.
  rewrite E by (rewrite length_map, length_combine, length_seq, Nat.min_id;
                lia).
  reflexivity.
Qed.

(** ** [perform_grid_search_by_model_names] *)

Lemma reads_only {A} (m : M A) :
  (forall P, keeps P m) -> forall st, snd (m st) = st.
Proof. intros H st; apply (H (fun s => s = st)); reflexivity. Qed.

Lemma per_family_model_name name st g s :
  per_family_search_params name st = (Ok g, s) ->
  dict_get g "final_model__model_name" = Some [PStr name].
Proof.
  unfold per_family_search_params, sm_bind; intros Hm.
  destruct (_construct_pipeline_search_params false None st) as [[g'|e] s'];
    [|discriminate].
  injection Hm as <- _; apply dict_get_set_same.
Qed.

Lemma bind_ok_inv {A B} (m : M A) (k : A -> M B) st b st' :
  sm_bind m k st = (Ok b, st') ->
  exists a s1, m st = (Ok a, s1) /\ k a s1 = (Ok b, st').
Proof.
  unfold sm_bind; destruct (m st) as [[a|e] s1]; intros H; [|discriminate H].
  exists a, s1; auto.
Qed.

Ltac step E a s H :=
  apply bind_ok_inv in E; destruct E as [a [s [H E]]]; cbv beta in E.

Lemma reads_only_ok {A} (m : M A) st a s :
  (forall P, keeps P m) -> m st = (Ok a, s) -> s = st.
Proof.
  intros Hk H; pose proof (reads_only m Hk st) as R; rewrite H in R; exact R.
Qed.

Lemma grid_search_one_ok ppl sc X y name st st' :
  grid_search_one ppl sc X y name st = (Ok tt, st') ->
  exists gsp gsps r,
    dict_get gsp "final_model__model_name" = Some [PStr name] /\
    grid_search_fit ppl gsp sc X y = Ok (grid_search r) /\
    cv_best_score r = best_score_ (grid_search r) /\
    (holdout_score r <> None <-> holdout_supplied st = true) /\
    grid_search_pipelines st = Some gsps /\
    grid_search_pipelines st' = Some (gsps ++ [r]) /\
    train_cfg st' = train_cfg st /\
    trained_pipeline st' = Some (best_estimator_ (grid_search r)).
Proof.
  intros E; unfold grid_search_one in E.
  step E gsp s1 H1.
  pose proof (per_family_model_name name st gsp s1 H1) as Hname.
  apply reads_only_ok in H1; [subst s1|intros P; apply keeps_per_family].
  step E u2 s2 H2; injection H2 as _ <-.
  step E gs s3 H3; injection H3 as Hfit <-.
  step E u4 s4 H4; injection H4 as _ <-.
  step E ty s5 H5; injection H5 as _ <-.
  step E u6 s6 H6.
  apply reads_only_ok in H6; [subst s6|intros P; keeps_solve].
  step E wr s7 H7; unfold get_cfg, sm_attr in H7; simpl in H7.
  destruct (train_cfg st) as [c|] eqn:Ec; simpl in H7; [|discriminate H7].
  injection H7 as _ <-.
  step E u8 s8 H8.
  apply reads_only_ok in H8; [subst s8|intros P; keeps_solve].
  step E xt s9 H9; unfold get_cfg, sm_attr in H9; simpl in H9; rewrite Ec in H9.
  injection H9 as Hxt <-.
  step E yt s10 H10; unfold get_cfg, sm_attr in H10; simpl in H10;
    rewrite Ec in H10.
  injection H10 as Hyt <-.
  step E holdout s11 H11.
  subst xt yt.
  assert (Hh : (holdout <> None <-> holdout_supplied st = true) /\ s11 =
            set_trained_pipeline (Some (best_estimator_ gs))
              (set_grid_search_params (Some gsp) st)).
  { unfold holdout_supplied; rewrite Ec.
    destruct (X_test c) as [[|x xs]|]; destruct (y_test c) as [[|yv ys]|];
      simpl in H11 |- *;
      try (injection H11 as <- <-; split; [split; [intros []; reflexivity|discriminate]|reflexivity]).
    unfold sm_bind in H11.
    destruct (score xs ys _) as [[h|e] s'] eqn:Esc; [|discriminate H11].
    injection H11 as <- <-.
    split; [split; [reflexivity|discriminate]|].
    apply reads_only_ok in Esc; [exact Esc|intros P; apply keeps_score]. }
  destruct Hh as [Hh ->].
  step E gsps s12 H12; unfold sm_attr in H12; simpl in H12.
  destruct (grid_search_pipelines st) as [gsps'|] eqn:Eg; [|discriminate H12].
  injection H12 as <- <-.
  injection E as <-.
  exists gsp, gsps', {| holdout_score := holdout; cv_best_score := best_score_ gs;
                      grid_search := gs |}.
  simpl; repeat split; auto; try apply Hh; exact Ec.
Qed.

(** a run of [perform_grid_search_by_model_names] that returns appends
    exactly one result per requested family, in the order of the names, to
    [self.grid_search_pipelines]: the result of a family comes from a grid
    search whose [final_model__model_name] axis is that one family, records
    [gs.best_score_] as its cross-validation score, and records a holdout
    score exactly when [X_test] and [y_test] are both non-empty.  The
    retained [trained_pipeline] is then the best estimator of the last
    family searched. *)
Theorem grid_search_loop_one_result_per_family (names : list string)
  (ppl : pipeline) (sc : scorer) (X : list row) (y : list tval)
  (st st' : predictor) (gsps : list gs_result) :
  grid_search_pipelines st = Some gsps ->
  perform_grid_search_by_model_names names ppl sc X y st = (Ok tt, st') ->
  exists rs,
    grid_search_pipelines st' = Some (gsps ++ rs) /\
    Forall2 (fun name r =>
      (exists gsp, dict_get gsp "final_model__model_name" = Some [PStr name] /\
                   grid_search_fit ppl gsp sc X y = Ok (grid_search r)) /\
      cv_best_score r = best_score_ (grid_search r) /\
      (holdout_score r <> None <-> holdout_supplied st = true)) names rs /\
    train_cfg st' = train_cfg st /\
    match rev rs with
    | [] => trained_pipeline st' = trained_pipeline st
    | r :: _ => trained_pipeline st' = Some (best_estimator_ (grid_search r))
    end.
Proof.
  revert st gsps; induction names as [|n rest IH]; intros st gsps Hg E; simpl in E.
  - injection E as <-; exists []; rewrite app_nil_r; repeat split; auto.
  - step E u s1 H1; destruct u.
    destruct (grid_search_one_ok ppl sc X y n st s1 H1)
      as [gsp [gsps' [r [Hn [Hfit [Hcv [Hho [Hg' [Hg1 [Hc1 Ht1]]]]]]]]]].
    rewrite Hg in Hg'; injection Hg' as <-.
    destruct (IH s1 (gsps ++ [r]) Hg1 E) as [rs [Hgs [Hf [Hc Ht]]]].
    assert (Hsup : holdout_supplied s1 = holdout_supplied st)
      by (unfold holdout_supplied; rewrite Hc1; reflexivity).
    exists (r :: rs); split; [rewrite Hgs, <- app_assoc; reflexivity|].
    split; [constructor; [split; [exists gsp; auto|split; [exact Hcv|exact Hho]]|]|].
    + eapply Forall2_impl; [|exact Hf].
      intros a b [Ha [Hb Hc']]; rewrite Hsup in Hc'; auto.
    + split; [congruence|].
      simpl; destruct (rev rs) as [|r' t]; simpl; [congruence|exact Ht].
Qed.

(** ** An untrained [Predictor] *)

Section Untrained.
Context {SP : @SklearnProba PV SK}.

(** on a [Predictor] that was constructed but never trained,
    [trained_pipeline] is [None]: [predict], [predict_proba] and [score]
    all raise [AttributeError] and leave the instance unchanged. *)
Theorem untrained_predictor_raises (s : string) (cds : list (string * string))
  (v : bool) (p : predictor) (prediction_data : list row) (X : list row)
  (y : list Val) :
  __init__ s cds v = Ok p ->
  predict prediction_data p = (Err AttributeError, p) /\
  predict_proba prediction_data p = (Err AttributeError, p) /\
  score X y p = (Err AttributeError, p).
Proof.
  intros H; destruct (init_fields s cds v p H) as [_ [_ [_ [Ht [Hs _]]]]].
  unfold predict, predict_proba, score; unfold_sm; simpl.
  rewrite Ht; simpl; auto.
Qed.

End Untrained.
End Extras.

(** ** The analytics printers *)

Section AnalyticsProofs.
Context {PV : PyValues} {SK : @Sklearn PV} {AN : @Analytics PV SK}.
Local Open Scope nat_scope.

Lemma skipn_nth_error {A} (l : list A) (i : nat) (x : A) :
  nth_error l i = Some x -> skipn i l = x :: skipn (S i) l.
Proof.
  revert i; induction l as [|y l IH]; intros [|i] H; simpl in *;
    try discriminate.
  - injection H as ->; reflexivity.
  - apply IH; exact H.
Qed.

Lemma select_by_mask_from (names : list string) (mask : list bool) :
  forall idx, idx <= List.length mask ->
  select_by_mask idx names mask =
    if List.length names + idx <=? List.length mask
    then Ok (map fst (filter snd (combine names (skipn idx mask))))
    else Err IndexError.
Proof.
  induction names as [|name rest IH]; intros idx Hidx.
  - simpl; replace (idx <=? List.length mask) with true
      by (symmetry; apply Nat.leb_le; exact Hidx).
    reflexivity.
  - cbn [select_by_mask List.length].
    replace (S (List.length rest) + idx) with (List.length rest + S idx) by lia.
    unfold py_index.
    destruct (nth_error mask idx) as [keep|] eqn:E.
    + assert (Hlt : idx < List.length mask)
        by (apply nth_error_Some; rewrite E; discriminate).
      rewrite (IH (S idx)) by lia.
      rewrite (skipn_nth_error _ _ _ E).
      destruct (List.length rest + S idx <=? List.length mask); [|reflexivity].
      destruct keep; reflexivity.
    + apply nth_error_None in E.
      replace (List.length rest + S idx <=? List.length mask) with false
        by (symmetry; apply Nat.leb_gt; lia).
      reflexivity.
Qed.

(** The feature-name selection of the printers keeps the names whose mask
    entry is true, in order, when the mask is at least as long as the names,
    and raises IndexError when it is shorter. *)
Theorem select_by_mask_keeps_masked_names (names : list string) (mask : list bool) :
  select_by_mask 0 names mask =
    if List.length names <=? List.length mask
    then Ok (map fst (filter snd (combine names mask)))
    else Err IndexError.
Proof.
  rewrite select_by_mask_from by lia.
  rewrite Nat.add_0_r; reflexivity.
Qed.


Lemma feature_summary_loop_short (names : list string) (c : Coef)
  (ranges : list Float) :
  forall idx, idx <= List.length ranges ->
  List.length ranges < List.length names + idx ->
  exists e, feature_summary_loop idx names c ranges = Err e.
Proof.
  induction names as [|n rest IH]; intros idx Hle H; simpl in *.
  - exfalso; lia.
  - unfold py_index at 1.
    destruct (nth_error ranges idx) eqn:E; [|eauto].
    assert (idx < List.length ranges)
      by (apply nth_error_Some; rewrite E; discriminate).
    destruct (coef_at c idx); [|eauto].
    destruct (IH (S idx)) as [e He]; [lia|lia|].
    rewrite He; eauto.
Qed.





Section Order.
Hypothesis lt_trans : forall a b c,
  float_lt a b = true -> float_lt b c = true -> float_lt a c = true.
Hypothesis lt_irrefl : forall a, float_lt a a = false.







End Order.

(** When the final model has fewer feature ranges than there are trained
    feature names, [_print_ml_analytics_results_regression] raises after
    printing only its header line. *)
Theorem regression_analytics_short_ranges_raise (st : predictor)
  (tp : FittedPipeline) (names : list string) :
  trained_pipeline st = Some tp ->
  trained_feature_names_of tp = Ok names ->
  List.length (final_model_feature_ranges tp) < List.length names ->
  exists e, _print_ml_analytics_results_regression st =
            (Err e, print [results_header tp] st).
Proof.
  intros Etp En Hshort.
  unfold _print_ml_analytics_results_regression, sm_bind, sm_attr, sm_modify,
    sm_lift, sm_gets, sm_ret.
  rewrite Etp; simpl; rewrite En; simpl.
  destruct (String.eqb (type_of_estimator st) "classifier").
  - destruct (coef_row0 (final_model_coef tp)) as [coefs|e]; simpl; [|eauto].
    destruct (feature_summary_loop_short names coefs (final_model_feature_ranges tp) 0)
      as [e He]; [lia|lia|].
    rewrite He; eauto.
  - destruct (feature_summary_loop_short names (final_model_coef tp)
                (final_model_feature_ranges tp) 0) as [e He]; [lia|lia|].
    rewrite He; eauto.
Qed.

End AnalyticsProofs.

(** ** Witnesses of the further properties *)



Lemma train_never_resets_took_log_of_y_witness :
  took_log_of_y log_trained = true /\
  took_log_of_y (snd (train example_rows kw_no_log log_trained)) = true.
Proof.
  split; [reflexivity|].
  apply train_never_resets_took_log_of_y; reflexivity.
Defined.


Lemma init_column_roles_witness :
  exists p, __init__ "regressor" mixed_roles true = Ok p /\
            output_column p = Some "b" /\ date_cols p = ["d"].
Proof.
  set (p := match __init__ "regressor" mixed_roles true with
            | Ok p => p | Err _ => toy_init "regressor" end).
  assert (E : __init__ "regressor" mixed_roles true = Ok p) by reflexivity.
  exists p; split; [exact E|].
  destruct (init_column_roles _ _ _ _ E) as (_ & Hd & _ & Ho); split.
  - apply (Ho [("a", "OUTPUT"); ("d", "Date")] "b" "output" [("n", "numeric")]);
      [reflexivity | reflexivity |].
    constructor; [simpl; discriminate | constructor].
  - rewrite Hd; reflexivity.
Defined.


Lemma train_empty_model_names_is_default_witness :
  kw_model_names kw_empty_model_names = Some [] /\
  train example_rows kw_empty_model_names (regressor_at 3) =
    train example_rows (without_model_names kw_empty_model_names) (regressor_at 3).
Proof.
  split; [reflexivity|].
  apply train_empty_model_names_is_default; reflexivity.
Defined.


Lemma predict_exp_on_enumerated_output_witness :
  @predict toy_values toy_sklearn_pairs [[("age", "34")]; [("age", "41")]]
    log_trained_pairs =
  (Ok (PySeq [PyFloat 2; PyFloat 2]), log_trained_pairs).
Proof.
  apply (@predict_exp_on_enumerated_output toy_values toy_sklearn_pairs
           log_trained_pairs 0%nat _
           [@PyFloat toy_values 2; @PyFloat toy_values 2] [2; 2]);
    [reflexivity | reflexivity | reflexivity |].
  repeat constructor.
Defined.

Lemma grid_search_loop_one_result_per_family_witness :
  exists st',
    perform_grid_search_by_model_names ["Ridge"; "XGBRegressor"] []
      RmseScoring [] [] (regressor_at 3) = (Ok tt, st') /\
    exists rs, grid_search_pipelines st' = Some rs /\ List.length rs = 2%nat.
Proof.
  set (res := perform_grid_search_by_model_names ["Ridge"; "XGBRegressor"] []
                RmseScoring [] [] (regressor_at 3)).
  assert (Hr : fst res = Ok tt) by reflexivity.
  assert (E : res = (Ok tt, snd res))
    by (rewrite <- Hr; destruct res; reflexivity).
  exists (snd res); split; [exact E|].
  destruct (grid_search_loop_one_result_per_family _ _ _ _ _ (regressor_at 3) _ []
              eq_refl E)
    as (rs & Hg & Hf & _).
  exists rs; split; [exact Hg|].
  apply Forall2_length in Hf; simpl in Hf; auto.
Defined.

Lemma untrained_predictor_raises_witness :
  exists p, __init__ "regressor" [("y", "output")] true = Ok p /\
    predict [[("age", "34")]] p = (Err AttributeError, p) /\
    predict_proba [[("age", "34")]] p = (Err AttributeError, p) /\
    score [] [] p = (Err AttributeError, p).
Proof.
  set (p := match __init__ "regressor" [("y", "output")] true with
            | Ok p => p | Err _ => toy_init "regressor" end).
  assert (E : __init__ "regressor" [("y", "output")] true = Ok p)
    by reflexivity.
  exists p; split; [exact E|].
  apply (untrained_predictor_raises _ _ _ _ _ _ _ E).
Defined.



Lemma regression_analytics_short_ranges_raise_witness :
  exists e,
    _print_ml_analytics_results_regression
      (set_trained_pipeline (Some 1%nat) (toy_init "regressor")) =
    (Err e, print [results_header 1%nat]
              (set_trained_pipeline (Some 1%nat) (toy_init "regressor"))).
Proof.
  apply (@regression_analytics_short_ranges_raise toy_values toy_sklearn toy_analytics
           _ 1%nat ["a"; "b"; "c"]);
    [reflexivity | reflexivity | apply Nat.ltb_lt; reflexivity].
Defined.
